(** * Document classification framework and stock data tool: a shallow embedding

    The development follows [simple_framework.py] (class
    [DocumentClassificationFramework]) and the tool [GetStockDataTool._run]
    of [stock_analysis.py].

    Text is modelled by Rocq strings.  The Python string methods that the
    sources call are written out on that type in module [PyStr]; they act on
    ASCII text the way the interpreter does (letters A-Z are the cased
    characters, the white space characters are the ASCII ones), every other
    character is left alone. *)

From Stdlib Require Import String Ascii List Bool Arith Lia ZArith Permutation.
Import ListNotations.
Open Scope string_scope.
Open Scope nat_scope.

(* ===================================================================== *)
(** ** Python string methods *)
(* ===================================================================== *)

Module PyStr.

(** One character of [str.lower]. *)
Definition lower_char (c : ascii) : ascii :=
  let n := nat_of_ascii c in
  if (65 <=? n) && (n <=? 90) then ascii_of_nat (n + 32) else c.

(** One character of [str.upper], for ASCII text: outside ASCII
    [str.upper] can change the number of characters, and the sources
    apply it to the extension literals only. *)
Definition upper_char (c : ascii) : ascii :=
  let n := nat_of_ascii c in
  if (97 <=? n) && (n <=? 122) then ascii_of_nat (n - 32) else c.

(** [s.lower()] *)
Fixpoint lower (s : string) : string :=
  match s with
  | EmptyString => EmptyString
  | String c t => String (lower_char c) (lower t)
  end.

(** [s.upper()] for a string of ASCII characters. *)
Fixpoint upper (s : string) : string :=
  match s with
  | EmptyString => EmptyString
  | String c t => String (upper_char c) (upper t)
  end.

(** [s.startswith(p)] *)
Fixpoint startswith (p s : string) : bool :=
  match p, s with
  | EmptyString, _ => true
  | String _ _, EmptyString => false
  | String a p', String b s' => Ascii.eqb a b && startswith p' s'
  end.

(** [sub in s]: [sub] occurs in [s] as a contiguous run of characters. *)
Fixpoint str_in (sub s : string) : bool :=
  startswith sub s ||
  match s with
  | EmptyString => false
  | String _ t => str_in sub t
  end.

(** [s[::-1]], used to read a string from its end. *)
Fixpoint rev (s : string) : string :=
  match s with
  | EmptyString => EmptyString
  | String c t => rev t ++ String c EmptyString
  end.

(** [s.endswith(p)] *)
Definition endswith (p s : string) : bool := startswith (rev p) (rev s).

(** [s[:n]] *)
Fixpoint take (n : nat) (s : string) : string :=
  match n, s with
  | O, _ => EmptyString
  | S _, EmptyString => EmptyString
  | S n', String c t => String c (take n' t)
  end.

(** [s[n:]] *)
Fixpoint drop (n : nat) (s : string) : string :=
  match n, s with
  | O, _ => s
  | S _, EmptyString => EmptyString
  | S n', String _ t => drop n' t
  end.

(** [c.isspace()] on ASCII: TAB, LF, VT, FF, CR, FS, GS, RS, US, space. *)
Definition isspace (c : ascii) : bool :=
  let n := nat_of_ascii c in
  ((9 <=? n) && (n <=? 13)) || ((28 <=? n) && (n <=? 32)).

(** [s.lstrip()] *)
Fixpoint lstrip (s : string) : string :=
  match s with
  | EmptyString => EmptyString
  | String c t => if isspace c then lstrip t else s
  end.

(** [s.strip()] *)
Definition strip (s : string) : string := rev (lstrip (rev (lstrip s))).

(** [s.split(sep)] for a one-character separator: the fields between the
    separators, empty fields kept; never the empty list. *)
Fixpoint split_on (sep : ascii) (s : string) : list string :=
  match s with
  | EmptyString => [EmptyString]
  | String c t =>
      if Ascii.eqb c sep then EmptyString :: split_on sep t
      else match split_on sep t with
           | [] => [String c EmptyString]
           | w :: ws => String c w :: ws
           end
  end.

(** [s.split()] without argument: the maximal runs of characters that are
    not white space.  [cur] is the run being read, in reverse. *)
Fixpoint split_ws_from (cur : string) (s : string) : list string :=
  match s with
  | EmptyString =>
      match cur with EmptyString => [] | _ => [rev cur] end
  | String c t =>
      if isspace c
      then match cur with
           | EmptyString => split_ws_from EmptyString t
           | _ => rev cur :: split_ws_from EmptyString t
           end
      else split_ws_from (String c cur) t
  end.

Definition split_ws (s : string) : list string := split_ws_from EmptyString s.

(** [sep.join(l)] *)
Fixpoint join (sep : string) (l : list string) : string :=
  match l with
  | [] => EmptyString
  | [x] => x
  | x :: rest => x ++ sep ++ join sep rest
  end.

(** The decimal digits of [str(n)] for a natural number. *)
Fixpoint digits_fuel (fuel n : nat) (acc : string) : string :=
  match fuel with
  | O => acc
  | S fuel' =>
      let acc' := String (ascii_of_nat (48 + n mod 10)) acc in
      if n / 10 =? 0 then acc' else digits_fuel fuel' (n / 10) acc'
  end.

Definition str_of_nat (n : nat) : string := digits_fuel (S n) n EmptyString.

End PyStr.

Import PyStr.

(* ===================================================================== *)
(** ** Classifier *)
(* ===================================================================== *)

Definition financial_keywords : list string :=
  ["invoice"; "payment"; "receipt"; "budget"; "financial"; "cost"; "price";
   "total"; "amount"].

Definition legal_keywords : list string :=
  ["contract"; "agreement"; "legal"; "terms"; "policy"; "clause";
   "liability"; "copyright"].

Definition hr_keywords : list string :=
  ["resume"; "cv"; "employee"; "hr"; "payroll"; "benefits"; "hiring";
   "interview"].

Definition tech_keywords : list string :=
  ["technical"; "specification"; "manual"; "guide"; "documentation"; "api";
   "software"].

(** [any(keyword in content_lower or keyword in filename_lower
         for keyword in keywords)] *)
Definition any_keyword (keywords : list string)
    (content_lower filename_lower : string) : bool :=
  existsb (fun keyword =>
             str_in keyword content_lower || str_in keyword filename_lower)
          keywords.

(** [classify_document(self, content, filename)] *)
Definition classify_document (content filename : string) : string :=
  let content_lower := lower content in
  let filename_lower := lower filename in
  if any_keyword financial_keywords content_lower filename_lower
  then "financial"
  else if any_keyword legal_keywords content_lower filename_lower
  then "legal"
  else if any_keyword hr_keywords content_lower filename_lower
  then "hr"
  else if any_keyword tech_keywords content_lower filename_lower
  then "technical"
  else "general".

(* ===================================================================== *)
(** ** Exceptions and program state *)
(* ===================================================================== *)

(** The outcome of an expression that may raise: its value, or the
    exception, kept as the text [str(e)] that the handlers use.  Only
    exceptions of class [Exception] are modelled, the ones the handlers
    of the sources name. *)
Inductive Exc (A : Type) : Type :=
| Ok (a : A)
| Raise (e : string).

Arguments Ok {A} a.
Arguments Raise {A} e.

(** A computation over a mutable state [S] that may raise. *)
Definition M (S A : Type) : Type := S -> Exc A * S.

Definition ret {S A : Type} (a : A) : M S A := fun s => (Ok a, s).

Definition bind {S A B : Type} (m : M S A) (k : A -> M S B) : M S B :=
  fun s =>
    match m s with
    | (Ok a, s') => k a s'
    | (Raise e, s') => (Raise e, s')
    end.

(** An external call: no effect on the program's own state. *)
Definition lift {S A : Type} (r : Exc A) : M S A := fun s => (r, s).

(** [try: m except Exception as e: h(str(e))] *)
Definition try_except {S A : Type} (m : M S A) (h : string -> M S A) : M S A :=
  fun s =>
    match m s with
    | (Ok a, s') => (Ok a, s')
    | (Raise e, s') => h e s'
    end.

Declare Scope monad_scope.
Delimit Scope monad_scope with monad.
Notation "x <- m ;; k" := (bind m (fun x => k))
  (at level 61, m at next level, right associativity) : monad_scope.
Notation "m ;;; k" := (bind m (fun _ => k))
  (at level 61, right associativity) : monad_scope.
Open Scope monad_scope.

(** What the framework writes: the lines printed on standard output and
    the records handed to [self.logger.error]. *)
Record Out : Type := mkOut {
  stdout : list string;
  errlog : list string
}.

Definition print (line : string) : M Out unit :=
  fun o => (Ok tt, mkOut (stdout o ++ [line])%list (errlog o)).

Definition logger_error (msg : string) : M Out unit :=
  fun o => (Ok tt, mkOut (stdout o) (errlog o ++ [msg])%list).

(* ===================================================================== *)
(** ** Paths ([pathlib], POSIX syntax) *)
(* ===================================================================== *)

(** A parsed path: the root ("", "/" or "//") and the components after it.
    Empty components and "." components are dropped by the parser. *)
Record Path : Type := mkPath {
  root : string;
  parts : list string
}.

Definition is_component (x : string) : bool :=
  negb (String.eqb x "" || String.eqb x ".").

(** [Path(s)] *)
Definition Path_of (s : string) : Path :=
  mkPath
    (if startswith "/" s
     then if startswith "//" s && negb (startswith "///" s) then "//" else "/"
     else "")
    (filter is_component (split_on "/" s)).

(** [str(path)] *)
Definition path_str (p : Path) : string :=
  match parts p with
  | [] => if String.eqb (root p) "" then "." else root p
  | _ => root p ++ join "/" (parts p)
  end.

(** [path.name] *)
Definition name (p : Path) : string := last (parts p) "".

(** [s.rfind(".")], [None] for -1. *)
Fixpoint rfind_dot (s : string) : option nat :=
  match s with
  | EmptyString => None
  | String c t =>
      match rfind_dot t with
      | Some i => Some (S i)
      | None => if Ascii.eqb c "." then Some 0 else None
      end
  end.

(** [path.suffix]: the part of the name from its last dot on, when that
    dot is neither the first nor the last character of the name. *)
Definition suffix (p : Path) : string :=
  let nm := name p in
  match rfind_dot nm with
  | Some i => if (0 <? i) && (i <? String.length nm - 1) then drop i nm else ""
  | None => ""
  end.

(** [dir / entry] for a directory entry. *)
Definition joinpath (dir : Path) (entry : string) : Path :=
  mkPath (root dir) (parts dir ++ [entry])%list.

(* ===================================================================== *)
(** ** The environment of the framework *)
(* ===================================================================== *)

(** What enumerating a path gives.  [Path.glob] (pathlib 3.11) lists a
    directory with [os.scandir]; it yields nothing when [is_dir()] is
    false, it swallows a [PermissionError] of the listing, and it lets
    every other error through. *)
Inductive Listing : Type :=
| Entries (names : list string)
| NotADirectory
| PermissionDenied (e : string)
| ScanFails (e : string).

(** The file system and the extraction libraries, as the framework sees
    them.  Paths are given by their text. *)
Record World : Type := mkWorld {
  (** [Path.exists] *)
  path_exists : string -> Exc bool;
  (** [Path.stat().st_size] *)
  st_size : string -> Exc nat;
  (** the listing of a path; the entries of a directory come in the order
      the system enumerates them *)
  listing : string -> Listing;
  (** whether the path flavour matches patterns case-sensitively *)
  case_sensitive : bool;
  (** the order in which the set [supported_extensions] is iterated *)
  set_order : list string;
  (** [Path.read_text(encoding='utf-8', errors='ignore')] *)
  read_text : string -> Exc string;
  (** [PyPDF2.PdfReader]: the pages, each with its [extract_text()] *)
  pdf_pages : string -> Exc (list (Exc string));
  (** [docx.Document]: the text of the paragraphs *)
  docx_paragraphs : string -> Exc (list string);
  (** [pytesseract.image_to_string(Image.open(path))] *)
  image_to_string : string -> Exc string
}.

Definition newline : string := String (ascii_of_nat 10) EmptyString.

(** [os.scandir(path)]: the entries, or the error it raises. *)
Definition scandir (w : World) (p : string) : Exc (list string) :=
  match listing w p with
  | Entries names => Ok names
  | NotADirectory => Raise ("[Errno 20] Not a directory: '" ++ p ++ "'")
  | PermissionDenied e => Raise e
  | ScanFails e => Raise e
  end.

(* ===================================================================== *)
(** ** DocumentClassificationFramework *)
(* ===================================================================== *)

(** The dictionary returned by [process_document]: the failure form
    [{"success": False, "error": ...}] or the success form with its seven
    keys. *)
Inductive DocResult : Type :=
| DocFailure (error : string)
| DocSuccess (file_name : string) (file_size : nat) (word_count : nat)
             (category summary content_preview : string).

(** The dictionary returned by [process_directory]. *)
Inductive DirResult : Type :=
| DirFailure (error : string)
| DirSuccess (total_files successful failed : nat) (results : list DocResult).

(** [result["success"]] *)
Definition success (r : DocResult) : bool :=
  match r with
  | DocFailure _ => false
  | DocSuccess _ _ _ _ _ _ => true
  end.

(** [result.get("error")] *)
Definition error (r : DocResult) : option string :=
  match r with
  | DocFailure e => Some e
  | DocSuccess _ _ _ _ _ _ => None
  end.

(** [result.get("content_preview")] *)
Definition content_preview_of (r : DocResult) : option string :=
  match r with
  | DocFailure _ => None
  | DocSuccess _ _ _ _ _ preview => Some preview
  end.

(** The members of the set literal [supported_extensions]. *)
Definition supported_extensions : list string :=
  [".pdf"; ".doc"; ".docx"; ".txt"; ".jpg"; ".jpeg"; ".png"].

(** The loop of [extract_pdf_text]:
    [for page in reader.pages: text += page.extract_text() + "\n"] *)
Fixpoint pdf_loop (pages : list (Exc string)) (text : string) : Exc string :=
  match pages with
  | [] => Ok text
  | Ok t :: rest => pdf_loop rest (text ++ t ++ newline)
  | Raise e :: _ => Raise e
  end.

(** [extract_pdf_text(self, file_path)] *)
Definition extract_pdf_text (w : World) (file_path : Path) : M Out string :=
  try_except
    (pages <- lift (pdf_pages w (path_str file_path)) ;;
     lift (pdf_loop pages ""))
    (fun e => logger_error ("PDF extraction error: " ++ e) ;;; ret "").

(** [extract_word_text(self, file_path)] *)
Definition extract_word_text (w : World) (file_path : Path) : M Out string :=
  try_except
    (paragraphs <- lift (docx_paragraphs w (path_str file_path)) ;;
     ret (join newline paragraphs))
    (fun e => logger_error ("Word extraction error: " ++ e) ;;; ret "").

(** [extract_image_text(self, file_path)] *)
Definition extract_image_text (w : World) (file_path : Path) : M Out string :=
  try_except
    (lift (image_to_string w (path_str file_path)))
    (fun e => logger_error ("OCR extraction error: " ++ e) ;;; ret "").

(** [extension in [...]] *)
Definition ext_in (extension : string) (l : list string) : bool :=
  existsb (String.eqb extension) l.

(** [extract_text(self, file_path)] *)
Definition extract_text (w : World) (file_path : Path) : M Out string :=
  let extension := lower (suffix file_path) in
  try_except
    (if String.eqb extension ".pdf" then extract_pdf_text w file_path
     else if ext_in extension [".doc"; ".docx"] then extract_word_text w file_path
     else if ext_in extension [".jpg"; ".jpeg"; ".png"]
     then extract_image_text w file_path
     else if String.eqb extension ".txt"
     then lift (read_text w (path_str file_path))
     else ret "")
    (fun e =>
       logger_error ("Text extraction error for " ++ path_str file_path
                     ++ ": " ++ e) ;;;
       ret "").

(** [generate_summary(self, content, category)] *)
Definition generate_summary (content category : string) : string :=
  let word_count := List.length (split_ws content) in
  let sentences := firstn 3 (split_on "." content) in
  let first_part := strip (join ". " sentences) in
  let first_part :=
    if 200 <? String.length first_part then take 200 first_part ++ "..."
    else first_part in
  let summary :=
    "This is a " ++ category ++ " document with " ++ str_of_nat word_count
    ++ " words. " in
  if negb (String.eqb first_part "")
  then summary ++ "Content preview: " ++ first_part
  else summary.

(** [content[:200] + "..." if len(content) > 200 else content] *)
Definition content_preview (content : string) : string :=
  if 200 <? String.length content then take 200 content ++ "..." else content.

(** The call [self.classify_document(content, filename)] made in a program
    state: the body works on its two arguments and its locals only. *)
Definition classify_document_call (content filename : string)
  : M Out string :=
  ret (classify_document content filename).

(** The body of the [try] of [process_document]. *)
Definition process_document_body (w : World) (file_path : string)
  : M Out DocResult :=
  print ("Processing: " ++ file_path) ;;;
  let path := Path_of file_path in
  present <- lift (path_exists w (path_str path)) ;;
  if negb present
  then ret (DocFailure ("File not found: " ++ file_path))
  else
    content <- extract_text w path ;;
    if String.eqb content ""
    then ret (DocFailure "Could not extract text from document")
    else
      category <- classify_document_call content (name path) ;;
      let summary := generate_summary content category in
      size <- lift (st_size w (path_str path)) ;;
      let result :=
        DocSuccess (name path) size (List.length (split_ws content))
                   category summary (content_preview content) in
      print ("Successfully processed: " ++ name path) ;;;
      print ("Category: " ++ category) ;;;
      print ("Word count: " ++ str_of_nat (List.length (split_ws content))) ;;;
      ret result.

(** [process_document(self, file_path)]: the body under its handler
    [except Exception as e]. *)
Definition process_document (w : World) (file_path : string)
  : M Out DocResult :=
  try_except
    (process_document_body w file_path)
    (fun e =>
       logger_error ("Error processing " ++ file_path ++ ": " ++ e) ;;;
       ret (DocFailure e)).

(** Whether a directory entry matches the pattern [f"*{ext}"]: the entry
    ends in [ext], compared as the path flavour compares. *)
Definition fnmatch_star (cs : bool) (ext entry : string) : bool :=
  if cs then endswith ext entry else endswith (lower ext) (lower entry).

(** [dir_path.glob(f"*{ext}")]: the children of the directory whose names
    match; nothing for a path that is no directory or that may not be
    listed; the error of a listing that fails otherwise. *)
Definition glob (w : World) (dir_path : Path) (ext : string)
  : Exc (list Path) :=
  match listing w (path_str dir_path) with
  | Entries entries =>
      Ok (map (joinpath dir_path)
              (filter (fnmatch_star (case_sensitive w) ext) entries))
  | NotADirectory => Ok []
  | PermissionDenied _ => Ok []
  | ScanFails e => Raise e
  end.

(** The discovery loop of [process_directory]:
    [for ext in supported_extensions:
         files.extend(dir_path.glob(f"*{ext}"))
         files.extend(dir_path.glob(f"*{ext.upper()}"))] *)
Fixpoint find_files (w : World) (dir_path : Path) (exts : list string)
    (files : list Path) : Exc (list Path) :=
  match exts with
  | [] => Ok files
  | ext :: rest =>
      match glob w dir_path ext with
      | Raise e => Raise e
      | Ok found_lower =>
          match glob w dir_path (upper ext) with
          | Raise e => Raise e
          | Ok found_upper =>
              find_files w dir_path rest
                         (files ++ found_lower ++ found_upper)%list
          end
      end
  end.

(** The processing loop of [process_directory]; the accumulator carries
    [results], [successful] and [failed]. *)
Fixpoint process_files (w : World) (files : list Path)
    (acc : list DocResult * nat * nat) : M Out (list DocResult * nat * nat) :=
  match files with
  | [] => ret acc
  | file_path :: rest =>
      let '(results, successful, failed) := acc in
      result <- process_document w (path_str file_path) ;;
      let results := (results ++ [result])%list in
      if success result
      then process_files w rest (results, successful + 1, failed)
      else process_files w rest (results, successful, failed + 1)
  end.

(** [process_directory(self, directory_path)] *)
Definition process_directory (w : World) (directory_path : string)
  : M Out DirResult :=
  try_except
    (let dir_path := Path_of directory_path in
     present <- lift (path_exists w (path_str dir_path)) ;;
     if negb present
     then ret (DirFailure ("Directory not found: " ++ directory_path))
     else
       files <- lift (find_files w dir_path (set_order w) []) ;;
       match files with
       | [] => ret (DirFailure "No supported documents found")
       | _ =>
           counted <- process_files w files ([], 0, 0) ;;
           let '(results, successful, failed) := counted in
           ret (DirSuccess (List.length files) successful failed results)
       end)
    (fun e => ret (DirFailure e)).

(* ===================================================================== *)
(** ** The body of [classify_document], statement by statement *)
(* ===================================================================== *)

(** To speak of what a method reads and writes, its body is also kept as
    the list of its statements, run by an interpreter over the state a
    method of the framework can reach: the attributes of [self] and what
    has been printed and logged. *)

Inductive Value : Type :=
| VNone
| VBool (b : bool)
| VStr (s : string)
| VList (l : list string).

(** The state outside a call. *)
Record Store : Type := mkStore {
  self_attrs : list (string * Value);
  console : Out
}.

(** The local variables of a call, the latest binding first. *)
Definition Locals : Type := list (string * Value).

Inductive Expr : Type :=
| Const (v : Value)
| LocalVar (x : string)
| SelfAttr (attr : string)
| LowerOf (e : Expr)
| AnyKeywordIn (keywords a b : Expr).

Inductive Stmt : Type :=
| Assign (x : string) (e : Expr)
| SetAttr (attr : string) (e : Expr)
| PrintLine (e : Expr)
| LogError (e : Expr)
| IfReturn (cond result : Expr)
| Return (e : Expr).

Fixpoint lookup (x : string) (env : list (string * Value)) : option Value :=
  match env with
  | [] => None
  | (y, v) :: rest => if String.eqb y x then Some v else lookup x rest
  end.

(** [any(keyword in a or keyword in b for keyword in keywords)], with [a]
    and [b] looked at only when a keyword is tested against them. *)
Fixpoint any_in (keywords : list string) (a b : Exc Value) : Exc bool :=
  match keywords with
  | [] => Ok false
  | keyword :: rest =>
      match a with
      | Ok (VStr x) =>
          if str_in keyword x then Ok true
          else match b with
               | Ok (VStr y) =>
                   if str_in keyword y then Ok true else any_in rest a b
               | Ok _ => Raise "argument of type is not iterable"
               | Raise e => Raise e
               end
      | Ok _ => Raise "argument of type is not iterable"
      | Raise e => Raise e
      end
  end.

Fixpoint eval (locals : Locals) (st : Store) (e : Expr) : Exc Value :=
  match e with
  | Const v => Ok v
  | LocalVar x =>
      match lookup x locals with
      | Some v => Ok v
      | None => Raise ("name '" ++ x ++ "' is not defined")
      end
  | SelfAttr attr =>
      match lookup attr (self_attrs st) with
      | Some v => Ok v
      | None => Raise ("object has no attribute '" ++ attr ++ "'")
      end
  | LowerOf e1 =>
      match eval locals st e1 with
      | Ok (VStr s) => Ok (VStr (lower s))
      | Ok _ => Raise "object has no attribute 'lower'"
      | Raise err => Raise err
      end
  | AnyKeywordIn keywords a b =>
      match eval locals st keywords with
      | Ok (VList kws) =>
          match any_in kws (eval locals st a) (eval locals st b) with
          | Ok t => Ok (VBool t)
          | Raise err => Raise err
          end
      | Ok _ => Raise "object is not iterable"
      | Raise err => Raise err
      end
  end.

(** The truth value of a value. *)
Definition is_true (v : Value) : bool :=
  match v with
  | VNone => false
  | VBool b => b
  | VStr s => negb (String.eqb s "")
  | VList l => match l with [] => false | _ => true end
  end.

(** [str(v)] *)
Definition str_of_value (v : Value) : string :=
  match v with
  | VNone => "None"
  | VBool true => "True"
  | VBool false => "False"
  | VStr s => s
  | VList l => "[" ++ join ", " (map (fun x => "'" ++ x ++ "'") l) ++ "]"
  end.

(** Running a body: the value it returns ([None] when it falls off its
    end) or the exception it raises, and the state it leaves. *)
Fixpoint run (body : list Stmt) (locals : Locals) : M Store Value :=
  match body with
  | [] => ret VNone
  | Assign x e :: rest =>
      fun st =>
        match eval locals st e with
        | Ok v => run rest ((x, v) :: locals) st
        | Raise err => (Raise err, st)
        end
  | SetAttr attr e :: rest =>
      fun st =>
        match eval locals st e with
        | Ok v =>
            run rest locals
                (mkStore ((attr, v) :: self_attrs st) (console st))
        | Raise err => (Raise err, st)
        end
  | PrintLine e :: rest =>
      fun st =>
        match eval locals st e with
        | Ok v =>
            run rest locals
                (mkStore (self_attrs st)
                         (mkOut (stdout (console st) ++ [str_of_value v])%list
                                (errlog (console st))))
        | Raise err => (Raise err, st)
        end
  | LogError e :: rest =>
      fun st =>
        match eval locals st e with
        | Ok v =>
            run rest locals
                (mkStore (self_attrs st)
                         (mkOut (stdout (console st))
                                (errlog (console st) ++ [str_of_value v])%list))
        | Raise err => (Raise err, st)
        end
  | IfReturn cond result :: rest =>
      fun st =>
        match eval locals st cond with
        | Ok v =>
            if is_true v then (eval locals st result, st)
            else run rest locals st
        | Raise err => (Raise err, st)
        end
  | Return e :: _ => fun st => (eval locals st e, st)
  end.

(** The statements of [classify_document], lines 163 to 186. *)
Definition classify_document_body : list Stmt :=
  [Assign "content_lower" (LowerOf (LocalVar "content"));
   Assign "filename_lower" (LowerOf (LocalVar "filename"));
   Assign "financial_keywords" (Const (VList financial_keywords));
   IfReturn (AnyKeywordIn (LocalVar "financial_keywords")
                          (LocalVar "content_lower") (LocalVar "filename_lower"))
            (Const (VStr "financial"));
   Assign "legal_keywords" (Const (VList legal_keywords));
   IfReturn (AnyKeywordIn (LocalVar "legal_keywords")
                          (LocalVar "content_lower") (LocalVar "filename_lower"))
            (Const (VStr "legal"));
   Assign "hr_keywords" (Const (VList hr_keywords));
   IfReturn (AnyKeywordIn (LocalVar "hr_keywords")
                          (LocalVar "content_lower") (LocalVar "filename_lower"))
            (Const (VStr "hr"));
   Assign "tech_keywords" (Const (VList tech_keywords));
   IfReturn (AnyKeywordIn (LocalVar "tech_keywords")
                          (LocalVar "content_lower") (LocalVar "filename_lower"))
            (Const (VStr "technical"));
   Return (Const (VStr "general"))].

(** The call [self.classify_document(content, filename)]: the body run
    with its two parameters bound. *)
Definition classify_document_method (content filename : string)
  : M Store Value :=
  run classify_document_body
      [("filename", VStr filename); ("content", VStr content)].

(** An expression that does not read the state outside the call. *)
Fixpoint reads_locals_only (e : Expr) : bool :=
  match e with
  | Const _ => true
  | LocalVar _ => true
  | SelfAttr _ => false
  | LowerOf e1 => reads_locals_only e1
  | AnyKeywordIn keywords a b =>
      reads_locals_only keywords && reads_locals_only a
      && reads_locals_only b
  end.

(** A statement that neither reads nor writes the state outside the
    call. *)
Definition stays_inside (s : Stmt) : bool :=
  match s with
  | Assign _ e => reads_locals_only e
  | Return e => reads_locals_only e
  | IfReturn cond result => reads_locals_only cond && reads_locals_only result
  | SetAttr _ _ => false
  | PrintLine _ => false
  | LogError _ => false
  end.

(** A body with a trace line in front of the classifier, for
    comparison. *)
Definition traced_body : list Stmt :=
  PrintLine (Const (VStr "classifying")) :: classify_document_body.

Definition empty_store : Store := mkStore [] (mkOut [] []).

(* ===================================================================== *)
(** ** GetStockDataTool *)
(* ===================================================================== *)

Module StockAnalysis.

(** The dictionary [stock_data]: keys with their values as [str] renders
    them. *)
Definition StockData : Type := list (string * string).

(** The market-data service.  [yf_data history ticker] is the outcome of
    the body of the [try] of [try_fetch_stock] for [ticker] (the
    dictionary it builds, or the exception it meets) when [history] lists
    the tickers requested before. *)
Record Market : Type := mkMarket {
  yf_data : list string -> string -> Exc StockData
}.

(** What a run of the tool does: the tickers it requested from the
    service, in order, and the lines it printed. *)
Record Trace : Type := mkTrace {
  requests : list string;
  printed : list string
}.

(** The pair returned by [try_fetch_stock]: [(stock_data, True)] or
    [(message, False)]. *)
Inductive Fetched : Type :=
| FetchOk (stock_data : StockData)
| FetchFailed (message : string).

Definition fetch_success (r : Fetched) : bool :=
  match r with
  | FetchOk _ => true
  | FetchFailed _ => false
  end.

Definition tool_print (line : string) : M Trace unit :=
  fun t => (Ok tt, mkTrace (requests t) (printed t ++ [line])%list).

(** [try_fetch_stock(ticker_symbol)] *)
Definition try_fetch_stock (mk : Market) (ticker_symbol : string)
  : M Trace Fetched :=
  fun t =>
    let t' := mkTrace (requests t ++ [ticker_symbol])%list (printed t) in
    match yf_data mk (requests t) ticker_symbol with
    | Ok stock_data => (Ok (FetchOk stock_data), t')
    | Raise e =>
        (Ok (FetchFailed ("Error fetching " ++ ticker_symbol ++ ": " ++ e)),
         t')
    end.

(** [data[key]]; a missing key raises [KeyError(key)]. *)
Fixpoint getitem (data : StockData) (key : string) : Exc string :=
  match data with
  | [] => Raise ("'" ++ key ++ "'")
  | (k, v) :: rest => if String.eqb k key then Ok v else getitem rest key
  end.

(** A piece of the formatted report: literal text or a field. *)
Inductive Piece : Type :=
| Lit (text : string)
| Field (key : string).

(** The f-string of [_run], piece by piece. *)
Definition report_template : list Piece :=
  [Lit newline; Lit "STOCK DATA FOR "; Field "symbol"; Lit newline;
   Lit "==============================="; Lit newline;
   Lit "Company: "; Field "company_name"; Lit newline;
   Lit "Sector: "; Field "sector"; Lit " | Industry: "; Field "industry";
   Lit newline; Lit newline;
   Lit "CURRENT METRICS:"; Lit newline;
   Lit "- Current Price: $"; Field "current_price"; Lit newline;
   Lit "- Market Cap: "; Field "market_cap"; Lit newline;
   Lit "- P/E Ratio: "; Field "pe_ratio"; Lit newline;
   Lit "- Price to Book: "; Field "price_to_book"; Lit newline;
   Lit "- Beta: "; Field "beta"; Lit newline; Lit newline;
   Lit "FINANCIAL HEALTH:"; Lit newline;
   Lit "- Debt to Equity: "; Field "debt_to_equity"; Lit newline;
   Lit "- Return on Equity: "; Field "roe"; Lit newline;
   Lit "- Profit Margin: "; Field "profit_margin"; Lit newline;
   Lit "- Revenue Growth: "; Field "revenue_growth"; Lit newline;
   Lit "- Dividend Yield: "; Field "dividend_yield"; Lit newline;
   Lit newline;
   Lit "PERFORMANCE:"; Lit newline;
   Lit "- 52 Week High: $"; Field "52_week_high"; Lit newline;
   Lit "- 52 Week Low: $"; Field "52_week_low"; Lit newline;
   Lit "- 1 Month Return: "; Field "1_month_return"; Lit "%"; Lit newline;
   Lit "- 3 Month Return: "; Field "3_month_return"; Lit "%"; Lit newline;
   Lit "- 1 Year Return: "; Field "1_year_return"; Lit "%"; Lit newline;
   Lit newline;
   Lit "TRADING DATA:"; Lit newline;
   Lit "- Volume: "; Field "volume"; Lit newline;
   Lit "- Average Volume: "; Field "avg_volume"; Lit newline;
   Lit "        "].

(** Evaluation of the f-string, left to right. *)
Fixpoint render (template : list Piece) (data : StockData) (acc : string)
  : Exc string :=
  match template with
  | [] => Ok acc
  | Lit text :: rest => render rest data (acc ++ text)
  | Field key :: rest =>
      match getitem data key with
      | Ok v => render rest data (acc ++ v)
      | Raise e => Raise e
      end
  end.

(** [_run(self, symbol)].  The listing of this method has lost a level of
    indentation after the first line of [try_fetch_stock]; the embedding
    follows the nesting that its [return] statements and its comments
    give: [try_fetch_stock] is the local function with its [try] and
    [except], and the body of [_run] starts at "Try original symbol
    first". *)
Definition _run (mk : Market) (symbol : string) : M Trace string :=
  fetched <- try_fetch_stock mk symbol ;;
  fetched <-
    (if negb (fetch_success fetched) && negb (endswith ".NS" symbol)
     then
       tool_print ("Trying " ++ symbol ++ ".NS for Indian stock...") ;;;
       try_fetch_stock mk (symbol ++ ".NS")
     else ret fetched) ;;
  match fetched with
  | FetchOk data => lift (render report_template data "")
  | FetchFailed message => ret message
  end.

End StockAnalysis.

(* ===================================================================== *)
(** ** Reading the results, and sample environments *)
(* ===================================================================== *)

Definition empty_out : Out := mkOut [] [].

(** The value a computation returns from a state. *)
Definition result_of {S A : Type} (m : M S A) (s : S) : Exc A := fst (m s).

(** The state a computation leaves. *)
Definition state_after {S A : Type} (m : M S A) (s : S) : S := snd (m s).

(** [m] returns a value from every state: it cannot raise. *)
Definition returns {S A : Type} (m : M S A) : Prop :=
  forall s, exists a s', m s = (Ok a, s').

Definition Path_eq_dec (p q : Path) : {p = q} + {p <> q}.
Proof.
  decide equality; [apply (list_eq_dec string_dec) | apply string_dec].
Defined.

(** The four keyword sets with their categories, in the order of the tests. *)
Definition priority_table : list (string * list string) :=
  [("financial", financial_keywords); ("legal", legal_keywords);
   ("hr", hr_keywords); ("technical", tech_keywords)].

(** The closed set of category names. *)
Definition categories : list string :=
  ["financial"; "legal"; "hr"; "technical"; "general"].

(** [kw] occurs in [s] as a substring. *)
Definition occurs_in (kw s : string) : Prop :=
  exists a b, s = a ++ kw ++ b.

(** Some keyword of the set occurs in the lower-cased content or in the
    lower-cased file name. *)
Definition set_matches (keywords : list string) (content filename : string)
  : Prop :=
  exists kw, In kw keywords /\
             (occurs_in kw (lower content) \/ occurs_in kw (lower filename)).

Definition enoent {A : Type} (p : string) : Exc A :=
  Raise ("[Errno 2] No such file or directory: '" ++ p ++ "'").

(** A directory [docs] with three text files that can be read and two
    documents that cannot: a damaged PDF and an image without text. *)
Definition sample_world : World :=
  mkWorld
    (fun p => Ok (ext_in p ["docs"; "docs/a.txt"; "docs/b.txt"; "docs/c.TXT";
                            "docs/d.pdf"; "docs/e.png"]))
    (fun p => if ext_in p ["docs/a.txt"; "docs/b.txt"; "docs/c.TXT"]
              then Ok 64 else enoent p)
    (fun p => if String.eqb p "docs"
              then Entries ["a.txt"; "b.txt"; "c.TXT"; "d.pdf"; "e.png"]
              else NotADirectory)
    true
    supported_extensions
    (fun p => if String.eqb p "docs/a.txt"
              then Ok "Please review the attached invoice and total amount due"
              else if String.eqb p "docs/b.txt"
              then Ok "The employee handbook. Read it."
              else if String.eqb p "docs/c.TXT"
              then Ok "hello world"
              else enoent p)
    (fun p => Raise "EOF marker not found")
    (fun p => Raise "File is not a zip file")
    (fun p => Ok "").

(** A directory whose only document has a mixed-case extension. *)
Definition mixed_case_world : World :=
  mkWorld
    (fun p => Ok (ext_in p ["docs"; "docs/report.Pdf"]))
    (fun p => Ok 1024)
    (fun p => if String.eqb p "docs" then Entries ["report.Pdf"]
              else NotADirectory)
    true
    supported_extensions
    (fun p => enoent p)
    (fun p => Ok [Ok "Quarterly budget"])
    (fun p => Raise "File is not a zip file")
    (fun p => Ok "").

(** The same directory under a path flavour that ignores case, holding a
    lower-case PDF. *)
Definition caseless_world : World :=
  mkWorld
    (fun p => Ok (ext_in p ["docs"; "docs/a.pdf"]))
    (fun p => Ok 1024)
    (fun p => if String.eqb p "docs" then Entries ["a.pdf"]
              else NotADirectory)
    false
    supported_extensions
    (fun p => enoent p)
    (fun p => Ok [Ok "Quarterly budget"])
    (fun p => Raise "File is not a zip file")
    (fun p => Ok "").

(** A directory with a text file whose size cannot be read. *)
Definition stat_fails_world : World :=
  mkWorld
    (fun p => Ok true)
    (fun p => Raise "[Errno 13] Permission denied")
    (fun p => Entries [])
    true
    supported_extensions
    (fun p => Ok "some notes")
    (fun p => Ok [])
    (fun p => Ok [])
    (fun p => Ok "").

(** A market that knows the ticker TCS.NS only. *)
Definition sample_market : StockAnalysis.Market :=
  StockAnalysis.mkMarket
    (fun _ ticker =>
       if String.eqb ticker "TCS.NS"
       then Ok (("symbol", "TCS.NS")
                :: map (fun key => (key, "N/A"))
                       ["company_name"; "sector"; "industry"; "current_price";
                        "market_cap"; "pe_ratio"; "price_to_book"; "beta";
                        "debt_to_equity"; "roe"; "profit_margin";
                        "revenue_growth"; "dividend_yield"; "52_week_high";
                        "52_week_low"; "1_month_return"; "3_month_return";
                        "1_year_return"; "volume"; "avg_volume"])
       else Raise "No data found, symbol may be delisted").

(** The record of the first text file of [sample_world]. *)
Definition sample_result : DocResult :=
  DocSuccess "a.txt" 64 9 "financial"
    ("This is a financial document with 9 words. Content preview: "
     ++ "Please review the attached invoice and total amount due")
    "Please review the attached invoice and total amount due".

(** The number of results that report success. *)
Definition count_successful (results : list DocResult) : nat :=
  List.length (filter success results).

(** The number of results that report failure. *)
Definition count_failed (results : list DocResult) : nat :=
  List.length (filter (fun r => negb (success r)) results).

(** The file [dir_path / entry] is in the list of discovered files, once. *)
Definition included_once (w : World) (dir_path : Path) (entry : string)
  : Prop :=
  exists files,
    find_files w dir_path (set_order w) [] = Ok files /\
    count_occ Path_eq_dec files (joinpath dir_path entry) = 1.

(** What one round of the discovery loop adds for [ext] when the directory
    holds [entries]. *)
Definition round_finds (w : World) (dir_path : Path) (entries : list string)
    (ext : string) : list Path :=
  (map (joinpath dir_path)
       (filter (fnmatch_star (case_sensitive w) ext) entries)
   ++ map (joinpath dir_path)
          (filter (fnmatch_star (case_sensitive w) (upper ext)) entries))%list.

(** The patterns that the discovery loop asks for, for a list of
    extensions: each extension as it is and in upper case. *)
Definition patterns (exts : list string) : list string :=
  flat_map (fun ext => [ext; upper ext]) exts.

Definition empty_trace : StockAnalysis.Trace := StockAnalysis.mkTrace [] [].

(* ===================================================================== *)
(** ** News search ([search_stock_news]) *)
(* ===================================================================== *)

Module StockNews.

(** A search result: what [result.get] finds under the keys title, body
    and href ([None] for a key that is absent). *)
Record Hit : Type := mkHit {
  hit_title : option string;
  hit_body : option string;
  hit_href : option string
}.

(** The dictionary [news_item]. *)
Record NewsItem : Type := mkNewsItem {
  title : string;
  body : string;
  url : string;
  source : string
}.

(** The search service: entering [with DDGS() as ddgs], and
    [list(ddgs.text(query, max_results=5, region='us-en'))] when
    [history] lists the queries made before. *)
Record Service : Type := mkService {
  ddgs_open : Exc unit;
  ddgs_text : list string -> string -> Exc (list Hit)
}.

(** What a search does: the queries sent, the calls of [time.sleep(1)],
    the lines printed. *)
Record Trace : Type := mkTrace {
  queries : list string;
  sleeps : nat;
  printed : list string
}.

(** [result.get(key, '')] *)
Definition get_or_empty (v : option string) : string :=
  match v with
  | Some s => s
  | None => ""
  end.

(** [result.get('href', '').split('/')[2] if result.get('href')
     else 'Unknown'] *)
Definition source_of (result : Hit) : Exc string :=
  match hit_href result with
  | None => Ok "Unknown"
  | Some href =>
      if String.eqb href "" then Ok "Unknown"
      else match nth_error (split_on "/" href) 2 with
           | Some host => Ok host
           | None => Raise "list index out of range"
           end
  end.

(** The dictionary display that builds [news_item]. *)
Definition news_item (result : Hit) : Exc NewsItem :=
  match source_of result with
  | Ok host =>
      Ok (mkNewsItem (get_or_empty (hit_title result))
                     (get_or_empty (hit_body result))
                     (get_or_empty (hit_href result))
                     host)
  | Raise e => Raise e
  end.

(** [for result in results: ... all_news.append(news_item)]: the list as
    the loop leaves it, and the exception that stopped it, if any. *)
Fixpoint collect (results : list Hit) (all_news : list NewsItem)
  : list NewsItem * Exc unit :=
  match results with
  | [] => (all_news, Ok tt)
  | result :: rest =>
      match news_item result with
      | Ok item => collect rest (all_news ++ [item])%list
      | Raise e => (all_news, Raise e)
      end
  end.

(** [print(f"Error with query '{query}': {e}")] *)
Definition report_query_error (query e : string) (t : Trace) : Trace :=
  mkTrace (queries t) (sleeps t)
          (printed t ++ [("Error with query '" ++ query ++ "': " ++ e)%string])%list.

(** [for query in queries: try: ... except Exception as e: ... continue] *)
Fixpoint search_loop (sv : Service) (todo : list string)
    (all_news : list NewsItem) (t : Trace) : list NewsItem * Trace :=
  match todo with
  | [] => (all_news, t)
  | query :: rest =>
      let t1 := mkTrace (queries t ++ [query])%list (sleeps t) (printed t) in
      match ddgs_text sv (queries t) query with
      | Raise e => search_loop sv rest all_news (report_query_error query e t1)
      | Ok results =>
          match collect results all_news with
          | (all_news', Ok _) =>
              search_loop sv rest all_news'
                          (mkTrace (queries t1) (sleeps t1 + 1) (printed t1))
          | (all_news', Raise e) =>
              search_loop sv rest all_news' (report_query_error query e t1)
          end
      end
  end.

(** One entry of the report, numbered [i]. *)
Definition format_item (i : nat) (news : NewsItem) : string :=
  newline ++ str_of_nat i ++ ". " ++ title news ++ newline
  ++ "   Source: " ++ source news ++ newline
  ++ "   Summary: " ++ take 200 (body news) ++ "..." ++ newline
  ++ "   URL: " ++ url news ++ newline
  ++ "   " ++ newline.

(** [for i, news in enumerate(items, i): formatted_news += ...] *)
Fixpoint format_items (i : nat) (items : list NewsItem)
    (formatted_news : string) : string :=
  match items with
  | [] => formatted_news
  | news :: rest =>
      format_items (S i) rest (formatted_news ++ format_item i news)
  end.

(** The three queries of a search. *)
Definition news_queries (company_name symbol : string) : list string :=
  [company_name ++ " stock news"; symbol ++ " earnings news";
   company_name ++ " financial news"].

(** [search_stock_news(company_name, symbol)] *)
Definition search_stock_news (sv : Service) (company_name symbol : string)
  : M Trace string :=
  try_except
    (lift (ddgs_open sv) ;;;
     (fun t =>
        let '(all_news, t') :=
          search_loop sv (news_queries company_name symbol) [] t in
        match all_news with
        | [] =>
            (Ok ("No recent news found for " ++ company_name ++ " ("
                 ++ symbol ++ ")"), t')
        | _ =>
            (Ok (format_items 1 (firstn 10 all_news)
                   (newline ++ "RECENT NEWS FOR " ++ company_name ++ " ("
                    ++ symbol ++ ")" ++ newline
                    ++ "==========================================" ++ newline)),
             t')
        end))
    (fun e => ret ("Error searching for news: " ++ e)).

(** A result whose source can be read: no address, or an address with a
    third component. *)
Definition well_formed (result : Hit) : Prop :=
  exists host, source_of result = Ok host.

End StockNews.

(* ===================================================================== *)
(** ** The command line ([main.py]) *)
(* ===================================================================== *)

Module Cli.

(** The parsed arguments. *)
Record Args : Type := mkArgs {
  arg_file : option string;
  arg_batch : option string;
  arg_interactive : bool
}.

(** What [main] finds around it: the API key in the environment, the key
    once [load_dotenv()] has run (the import and the call are outside the
    [try] and may raise), the import of the framework (an [ImportError]
    when it fails), and the display of the result dictionaries by
    [print]. *)
Record Env : Type := mkEnv {
  getenv_key : option string;
  dotenv_key : Exc (option string);
  import_framework : Exc unit;
  repr_doc : DocResult -> string;
  repr_dir : DirResult -> string
}.

(** The truth value of an optional string: [None] and [""] are false. *)
Definition truthy (v : option string) : bool :=
  match v with
  | Some s => negb (String.eqb s "")
  | None => false
  end.

(** The text of a flag that is set. *)
Definition arg_value (v : option string) : string :=
  match v with
  | Some s => s
  | None => ""
  end.

Definition eof_error : string := "EOF when reading a line".

(** What one turn of the interactive loop writes before it reads the
    choice: the menu and the prompt. *)
Definition menu : list string :=
  [newline ++ "Options:"; "1. Process single document";
   "2. Process directory"; "3. Exit"; "Select option (1-3): "].

(** The line, once stripped, is one of the three choices. *)
Definition is_choice (line : string) : bool :=
  ext_in (strip line) ["1"; "2"; "3"].

(** The loop [while True] of the interactive mode, on the lines that
    standard input still holds.  [input] writes its prompt (recorded like
    a printed line) and raises [EOFError] when no line is left.  The value
    is the input that the loop has left unread when it stops. *)
Fixpoint interactive_loop (w : World) (env : Env) (stdin : list string)
    {struct stdin} : M Out (list string) :=
  print (newline ++ "Options:") ;;;
  print "1. Process single document" ;;;
  print "2. Process directory" ;;;
  print "3. Exit" ;;;
  print "Select option (1-3): " ;;;
  match stdin with
  | [] => lift (Raise eof_error)
  | line :: rest =>
      let choice := strip line in
      if String.eqb choice "1" then
        print "Enter document path: " ;;;
        match rest with
        | [] => lift (Raise eof_error)
        | line2 :: rest2 =>
            let file_path := strip line2 in
            (if String.eqb file_path "" then ret tt
             else result <- process_document w file_path ;;
                  print ("Results: " ++ repr_doc env result)) ;;;
            interactive_loop w env rest2
        end
      else if String.eqb choice "2" then
        print "Enter directory path: " ;;;
        match rest with
        | [] => lift (Raise eof_error)
        | line2 :: rest2 =>
            let dir_path := strip line2 in
            (if String.eqb dir_path "" then ret tt
             else result <- process_directory w dir_path ;;
                  print ("Results: " ++ repr_dir env result)) ;;;
            interactive_loop w env rest2
        end
      else if String.eqb choice "3" then
        print "Goodbye!" ;;; ret rest
      else
        print "Invalid option" ;;; interactive_loop w env rest
  end.

(** The body of the [try] of [main], after the import. *)
Definition dispatch (w : World) (env : Env) (args : Args)
    (stdin : list string) : M Out unit :=
  print "Framework initialized successfully" ;;;
  if truthy (arg_file args) then
    let file := arg_value (arg_file args) in
    print ("Processing single document: " ++ file) ;;;
    result <- process_document w file ;;
    print "Processing completed!" ;;;
    print ("Results: " ++ repr_doc env result)
  else if truthy (arg_batch args) then
    let batch := arg_value (arg_batch args) in
    print ("Processing directory: " ++ batch) ;;;
    result <- process_directory w batch ;;
    print "Batch processing completed!" ;;;
    print ("Results: " ++ repr_dir env result)
  else
    print "Interactive Mode" ;;;
    interactive_loop w env stdin ;;; ret tt.

(** [main()], once the arguments are parsed. *)
Definition main (w : World) (env : Env) (args : Args) (stdin : list string)
  : M Out unit :=
  print "Document Classification Framework" ;;;
  print "==================================================" ;;;
  have_key <-
    (if truthy (getenv_key env) then ret true
     else loaded <- lift (dotenv_key env) ;; ret (truthy loaded)) ;;
  if negb have_key then
    print "Error: GOOGLE_API_KEY not found in environment" ;;;
    print "Please check your .env file"
  else
    match import_framework env with
    | Raise e =>
        print ("Error importing framework: " ++ e) ;;;
        print "Make sure all dependencies are installed"
    | Ok _ =>
        try_except (dispatch w env args stdin)
                   (fun e => print ("Error: " ++ e))
    end.

End Cli.

(* ===================================================================== *)
(** ** More sample environments *)
(* ===================================================================== *)

(** What a guarded call to an extraction library leaves: the text with
    nothing written, or the empty text with one more record in the log. *)
Definition quiet_or_logged (o : Out) (res : Exc string * Out) : Prop :=
  exists content o',
    res = (Ok content, o') /\
    stdout o' = stdout o /\
    (errlog o' = errlog o \/
     content = "" /\ exists msg, errlog o' = (errlog o ++ [msg])%list).

(** The text of a PDF whose pages are all read: each page, then a line
    end. *)
Fixpoint pdf_text (texts : list string) : string :=
  match texts with
  | [] => ""
  | t :: rest => t ++ newline ++ pdf_text rest
  end.

(** Every character of the string is white space. *)
Fixpoint only_space (s : string) : bool :=
  match s with
  | EmptyString => true
  | String c t => isspace c && only_space t
  end.

(** The lines that [process_document] prints after "Processing: ..." for
    a result: the three confirmations of a success, nothing for a
    failure. *)
Definition confirmation_lines (r : DocResult) : list string :=
  match r with
  | DocFailure _ => []
  | DocSuccess file_name _ word_count category _ _ =>
      ["Successfully processed: " ++ file_name; "Category: " ++ category;
       "Word count: " ++ str_of_nat word_count]
  end.

(** A scanned PDF: two pages, no text on either. *)
Definition blank_pdf_world : World :=
  mkWorld
    (fun p => Ok true)
    (fun p => Ok 2048)
    (fun p => Entries [])
    true
    supported_extensions
    (fun p => enoent p)
    (fun p => Ok [Ok ""; Ok ""])
    (fun p => Raise "File is not a zip file")
    (fun p => Ok "").

(** A directory that exists and may not be listed. *)
Definition unreadable_dir_world : World :=
  mkWorld
    (fun p => Ok true)
    (fun p => Ok 0)
    (fun p => PermissionDenied ("[Errno 13] Permission denied: '" ++ p ++ "'"))
    true
    supported_extensions
    (fun p => enoent p)
    (fun p => Ok [])
    (fun p => Ok [])
    (fun p => Ok "").

(** A directory whose listing fails with an input/output error. *)
Definition failing_disk_world : World :=
  mkWorld
    (fun p => Ok true)
    (fun p => Ok 0)
    (fun p => ScanFails ("[Errno 5] Input/output error: '" ++ p ++ "'"))
    true
    supported_extensions
    (fun p => enoent p)
    (fun p => Ok [])
    (fun p => Ok [])
    (fun p => Ok "").

(** The keys that a template reads, in order. *)
Fixpoint fields_of (template : list StockAnalysis.Piece) : list string :=
  match template with
  | [] => []
  | StockAnalysis.Lit _ :: rest => fields_of rest
  | StockAnalysis.Field key :: rest => key :: fields_of rest
  end.

(** A market that answers every ticker with a dictionary that has no
    return fields, as for a stock without price history. *)
Definition no_history_market : StockAnalysis.Market :=
  StockAnalysis.mkMarket
    (fun _ ticker =>
       Ok (("symbol", ticker)
           :: map (fun key => (key, "N/A"))
                  ["company_name"; "sector"; "industry"; "current_price";
                   "market_cap"; "pe_ratio"; "price_to_book"; "beta";
                   "debt_to_equity"; "roe"; "profit_margin";
                   "revenue_growth"; "dividend_yield"; "52_week_high";
                   "52_week_low"; "volume"; "avg_volume"])).

(** A market that knows no ticker. *)
Definition closed_market : StockAnalysis.Market :=
  StockAnalysis.mkMarket
    (fun _ ticker => Raise ("No data found for " ++ ticker)).

(** A search service that is down. *)
Definition failing_service : StockNews.Service :=
  StockNews.mkService (Ok tt) (fun _ query => Raise "Ratelimit").

(** A search service that cannot be opened. *)
Definition closed_service : StockNews.Service :=
  StockNews.mkService (Raise "Connection refused") (fun _ query => Ok []).

Definition empty_search : StockNews.Trace := StockNews.mkTrace [] 0 [].

(** Two results that can be read, and one whose address has no host
    part. *)
Definition good_hit : StockNews.Hit :=
  StockNews.mkHit (Some "Results") (Some "Record quarter")
                  (Some "https://news.example.com/a").

Definition plain_hit : StockNews.Hit :=
  StockNews.mkHit (Some "Note") None None.

Definition bad_hit : StockNews.Hit :=
  StockNews.mkHit (Some "Broken") (Some "") (Some "example.com").

(** An environment with the API key set and the framework importable. *)
Definition sample_env : Cli.Env :=
  Cli.mkEnv (Some "secret") (Ok (Some "secret")) (Ok tt)
            (fun r => if success r then "{'success': True, ...}"
                      else "{'success': False, ...}")
            (fun r => "{...}").

(** An environment without API key, before and after the .env file. *)
Definition keyless_env : Cli.Env :=
  Cli.mkEnv None (Ok (Some "")) (Ok tt) (fun r => "{...}") (fun r => "{...}").

(** An environment without API key in which reading the .env file fails. *)
Definition broken_dotenv_env : Cli.Env :=
  Cli.mkEnv None (Raise "No module named 'dotenv'") (Ok tt)
            (fun r => "{...}") (fun r => "{...}").

(** The string has no slash. *)
Fixpoint no_slash (s : string) : bool :=
  match s with
  | EmptyString => true
  | String c t => negb (Ascii.eqb c "/") && no_slash t
  end.

(** A name that can be a component of a path: not empty, not ".", without
    slash. *)
Definition proper_component (x : string) : bool :=
  is_component x && no_slash x.

(** A path as the parser builds it: one of the three roots, and proper
    components. *)
Definition wf_path (p : Path) : bool :=
  ext_in (root p) [""; "/"; "//"] && forallb proper_component (parts p).

(** Every character of the string is an ASCII character. *)
Fixpoint is_ascii (s : string) : bool :=
  match s with
  | EmptyString => true
  | String c t => (nat_of_ascii c <? 128) && is_ascii t
  end.

(** The text a piece of a template stands for: itself, or the value of
    its field. *)
Definition piece_text (data : StockAnalysis.StockData)
    (p : StockAnalysis.Piece) : string :=
  match p with
  | StockAnalysis.Lit text => text
  | StockAnalysis.Field key =>
      match StockAnalysis.getitem data key with
      | Ok v => v
      | Raise _ => ""
      end
  end.

(** A template with every field replaced by its value. *)
Definition filled (template : list StockAnalysis.Piece)
    (data : StockAnalysis.StockData) : string :=
  fold_right String.append "" (map (piece_text data) template).

(* ===================================================================== *)
(** ** Sample runs *)
(* ===================================================================== *)

Example split_ws_sample :
  split_ws ("  a bc" ++ newline ++ " d ") = ["a"; "bc"; "d"].
Proof. reflexivity. Qed.

Example split_on_sample : split_on "." "a.b..c." = ["a"; "b"; ""; "c"; ""].
Proof. reflexivity. Qed.

Example str_of_nat_sample : str_of_nat 1203 = "1203" /\ str_of_nat 0 = "0".
Proof. split; reflexivity. Qed.

Example path_sample :
  path_str (Path_of "//srv/./docs//report.tar.gz/") = "//srv/docs/report.tar.gz"
  /\ suffix (Path_of "docs/report.tar.gz") = ".gz"
  /\ suffix (Path_of "docs/.bashrc") = ""
  /\ suffix (Path_of "docs/notes.") = ""
  /\ path_str (Path_of "") = ".".
Proof. repeat split. Qed.

Example summary_sample :
  generate_summary "The employee handbook. Read it." "hr"
  = "This is a hr document with 5 words. Content preview: The employee handbook.  Read it.".
Proof. reflexivity. Qed.

Example process_document_sample :
  process_document sample_world "docs/a.txt" empty_out
  = (Ok sample_result,
     mkOut ["Processing: docs/a.txt"; "Successfully processed: a.txt";
            "Category: financial"; "Word count: 9"] []).
Proof. reflexivity. Qed.

Example damaged_pdf_sample :
  process_document sample_world "docs/d.pdf" empty_out
  = (Ok (DocFailure "Could not extract text from document"),
     mkOut ["Processing: docs/d.pdf"]
           ["PDF extraction error: EOF marker not found"]).
Proof. reflexivity. Qed.

Example run_sample :
  StockAnalysis.requests
    (state_after (StockAnalysis._run sample_market "TCS") empty_trace)
  = ["TCS"; "TCS.NS"].
Proof. reflexivity. Qed.

(* ===================================================================== *)
(** ** Facts about the string methods *)
(* ===================================================================== *)

Section StringFacts.

Lemma append_assoc (a b c : string) : (a ++ b) ++ c = a ++ b ++ c.
Proof. induction a as [|x a IH]; simpl; [reflexivity | now rewrite IH]. Qed.

Lemma append_empty_r (a : string) : a ++ "" = a.
Proof. induction a as [|x a IH]; simpl; [reflexivity | now rewrite IH]. Qed.

Lemma length_append (a b : string) :
  String.length (a ++ b) = String.length a + String.length b.
Proof. induction a as [|x a IH]; simpl; [reflexivity | now rewrite IH]. Qed.

Lemma startswith_spec (p s : string) :
  startswith p s = true <-> exists b, s = p ++ b.
Proof.
  revert s; induction p as [|x p IH]; intros s; simpl.
  - split; [intros _; now exists s | reflexivity].
  - destruct s as [|y s].
    + split; [discriminate | intros [b Hb]; discriminate].
    + rewrite andb_true_iff, Ascii.eqb_eq, IH. split.
      * intros [-> [b ->]]. now exists b.
      * intros [b Hb]. injection Hb as -> ->. split; [reflexivity | now exists b].
Qed.

Lemma str_in_spec (sub s : string) :
  str_in sub s = true <-> occurs_in sub s.
Proof.
  unfold occurs_in. induction s as [|y s IH].
  - simpl. rewrite orb_false_r, startswith_spec. split.
    + intros [b Hb]. now exists "", b.
    + intros [a [b Hab]]. destruct a; simpl in Hab.
      * now exists b.
      * discriminate.
  - cbn [str_in]. rewrite orb_true_iff, startswith_spec, IH. split.
    + intros [[b Hb] | [a [b Hab]]].
      * now exists "", b.
      * exists (String y a), b. simpl. now rewrite Hab.
    + intros [a [b Hab]]. destruct a as [|x a]; simpl in Hab.
      * left. now exists b.
      * right. injection Hab as _ ->. now exists a, b.
Qed.

Lemma str_in_false (sub s : string) :
  str_in sub s = false -> ~ occurs_in sub s.
Proof.
  intros H Hocc. apply str_in_spec in Hocc. congruence.
Qed.

Lemma lower_app (a b : string) : lower (a ++ b) = lower a ++ lower b.
Proof. induction a as [|x a IH]; simpl; [reflexivity | now rewrite IH]. Qed.

Lemma length_lower (s : string) : String.length (lower s) = String.length s.
Proof. induction s as [|x s IH]; simpl; [reflexivity | now rewrite IH]. Qed.

(** A string that [lower] leaves alone still occurs after lower-casing
    the text around it. *)
Lemma occurs_in_lower (kw s : string) :
  lower kw = kw -> occurs_in kw s -> occurs_in kw (lower s).
Proof.
  intros Hkw [a [b ->]]. exists (lower a), (lower b).
  now rewrite !lower_app, Hkw.
Qed.

Lemma rev_app (a b : string) : rev (a ++ b) = rev b ++ rev a.
Proof.
  induction a as [|x a IH]; simpl.
  - now rewrite append_empty_r.
  - now rewrite IH, append_assoc.
Qed.

Lemma rev_involutive (s : string) : rev (rev s) = s.
Proof.
  induction s as [|x s IH]; simpl; [reflexivity|].
  now rewrite rev_app, IH.
Qed.

Lemma endswith_spec (p s : string) :
  endswith p s = true <-> exists a, s = a ++ p.
Proof.
  unfold endswith. rewrite startswith_spec. split.
  - intros [b Hb]. exists (rev b).
    rewrite <- (rev_involutive s), Hb, rev_app, rev_involutive. reflexivity.
  - intros [a ->]. exists (rev a). apply rev_app.
Qed.

Lemma length_take (n : nat) (s : string) :
  String.length (take n s) = Nat.min n (String.length s).
Proof.
  revert s; induction n as [|n IH]; intros [|x s]; simpl; auto.
Qed.

Lemma take_drop (n : nat) (s : string) : take n s ++ drop n s = s.
Proof.
  revert s; induction n as [|n IH]; intros [|x s]; simpl; auto.
  now rewrite IH.
Qed.

End StringFacts.

(* ===================================================================== *)
(** ** The classifier *)
(* ===================================================================== *)

Section Classifier.

Lemma any_keyword_spec (keywords : list string) (content filename : string) :
  any_keyword keywords (lower content) (lower filename) = true
  <-> set_matches keywords content filename.
Proof.
  unfold any_keyword, set_matches. rewrite existsb_exists.
  split; intros [kw [Hin H]]; exists kw; split; auto.
  - apply orb_true_iff in H. now rewrite <- !str_in_spec.
  - apply orb_true_iff. now rewrite !str_in_spec.
Qed.

Lemma any_keyword_false (keywords : list string) (content filename : string) :
  ~ set_matches keywords content filename ->
  any_keyword keywords (lower content) (lower filename) = false.
Proof.
  intros H. apply not_true_is_false. now rewrite any_keyword_spec.
Qed.

(** The classifier is the first row of the priority table whose keyword
    set has a member in the lower-cased content or file name. *)
Lemma classify_document_first_match (content filename : string) :
  classify_document content filename =
  match find (fun row => any_keyword (snd row) (lower content) (lower filename))
             priority_table with
  | Some row => fst row
  | None => "general"
  end.
Proof.
  unfold classify_document, priority_table. cbn [find snd fst].
  repeat match goal with
         | |- context [if ?b then _ else _] => destruct b; try reflexivity
         end.
Qed.

Lemma keywords_lower_case :
  forall kw, In kw (financial_keywords ++ legal_keywords ++ hr_keywords
                    ++ tech_keywords)%list -> lower kw = kw.
Proof.
  intros kw Hin. cbn in Hin.
  repeat (destruct Hin as [<- | Hin]; [reflexivity|]). destruct Hin.
Qed.

End Classifier.

(** C1. [classify_document] tests the keyword sets in the order
    financial, legal, hr, technical and answers with the category of the
    first set that has a member occurring in the lower-cased content or in
    the lower-cased file name.  In particular a content that contains a
    financial keyword and a legal keyword is classified "financial", and so
    is the content "Please review the attached invoice and total amount
    due" of the file doc1.txt. *)
Theorem classify_document_priority :
  (forall content filename,
      classify_document content filename =
      match find (fun row =>
                    any_keyword (snd row) (lower content) (lower filename))
                 priority_table with
      | Some row => fst row
      | None => "general"
      end) /\
  (forall content filename,
      (set_matches financial_keywords content filename ->
       classify_document content filename = "financial") /\
      (~ set_matches financial_keywords content filename ->
       set_matches legal_keywords content filename ->
       classify_document content filename = "legal") /\
      (~ set_matches financial_keywords content filename ->
       ~ set_matches legal_keywords content filename ->
       set_matches hr_keywords content filename ->
       classify_document content filename = "hr") /\
      (~ set_matches financial_keywords content filename ->
       ~ set_matches legal_keywords content filename ->
       ~ set_matches hr_keywords content filename ->
       set_matches tech_keywords content filename ->
       classify_document content filename = "technical")) /\
  (forall content filename kf kl,
      In kf financial_keywords -> In kl legal_keywords ->
      occurs_in kf content -> occurs_in kl content ->
      classify_document content filename = "financial") /\
  classify_document "Please review the attached invoice and total amount due"
                    "doc1.txt" = "financial".
Proof.
  split; [exact classify_document_first_match|]. split; [|split].
  - intros content filename. unfold classify_document.
    repeat split; intros;
      repeat match goal with
             | H : set_matches _ _ _ |- _ =>
                 apply any_keyword_spec in H; rewrite H
             | H : ~ set_matches _ _ _ |- _ =>
                 apply any_keyword_false in H; rewrite H
             end; reflexivity.
  - intros content filename kf kl Hkf _ Hocc _.
    unfold classify_document.
    assert (H : set_matches financial_keywords content filename).
    { exists kf. split; [exact Hkf|]. left.
      apply occurs_in_lower; [|exact Hocc].
      apply keywords_lower_case. apply in_or_app. now left. }
    apply any_keyword_spec in H. now rewrite H.
  - reflexivity.
Qed.

Lemma classify_document_priority_witness :
  classify_document "This contract covers the payment schedule" "notes.txt"
  = "financial".
Proof.
  apply (proj1 (proj2 (proj2 classify_document_priority)))
    with (kf := "payment") (kl := "contract").
  - simpl; auto.
  - simpl; auto.
  - exists "This contract covers the ", " schedule". reflexivity.
  - exists "This ", " covers the payment schedule". reflexivity.
Defined.

(** C6. [classify_document] always answers with one of the five category
    names, and with "general" when no keyword of the four sets occurs in
    the lower-cased content or file name. *)
Theorem classify_document_closed_enum :
  (forall content filename,
      In (classify_document content filename) categories) /\
  (forall content filename,
      (forall kw,
          In kw (financial_keywords ++ legal_keywords ++ hr_keywords
                 ++ tech_keywords)%list ->
          ~ occurs_in kw (lower content) /\ ~ occurs_in kw (lower filename)) ->
      classify_document content filename = "general").
Proof.
  split.
  - intros content filename. unfold classify_document, categories.
    repeat match goal with
           | |- context [if ?b then _ else _] => destruct b
           end; simpl; auto 6.
  - intros content filename Hnone.
    assert (Hno : forall kws,
               incl kws (financial_keywords ++ legal_keywords ++ hr_keywords
                         ++ tech_keywords)%list ->
               any_keyword kws (lower content) (lower filename) = false).
    { intros kws Hincl. apply any_keyword_false.
      intros [kw [Hin H]].
      destruct (Hnone kw (Hincl kw Hin)) as [Hc Hf]. tauto. }
    unfold classify_document.
    rewrite !Hno; [reflexivity | | | |]; intros kw Hin; cbn; cbn in Hin; tauto.
Qed.

Lemma classify_document_closed_enum_witness :
  classify_document "Hello world, nothing to see" "letter.txt" = "general".
Proof.
  apply (proj2 classify_document_closed_enum).
  intros kw Hin. cbn in Hin.
  repeat (destruct Hin as [<- | Hin];
          [split; apply str_in_false; reflexivity|]).
  destruct Hin.
Defined.

Section MethodBodies.

Lemma any_in_strings (keywords : list string) (x y : string) :
  any_in keywords (Ok (VStr x)) (Ok (VStr y)) = Ok (any_keyword keywords x y).
Proof.
  unfold any_keyword. induction keywords as [|kw keywords IH]; cbn.
  - reflexivity.
  - destruct (str_in kw x); [reflexivity|].
    destruct (str_in kw y); [reflexivity|]. exact IH.
Qed.

Lemma eval_reads_locals_only (locals : Locals) (e : Expr) (s1 s2 : Store) :
  reads_locals_only e = true -> eval locals s1 e = eval locals s2 e.
Proof.
  induction e as [v | x | attr | e IH | k IHk a IHa b IHb];
    cbn [reads_locals_only eval]; intros H.
  - reflexivity.
  - reflexivity.
  - discriminate.
  - now rewrite (IH H).
  - apply andb_true_iff in H as [H Hb]. apply andb_true_iff in H as [Hk Ha].
    now rewrite (IHk Hk), (IHa Ha), (IHb Hb).
Qed.

(** A body whose statements all stay inside the call returns the same
    from every state and leaves the state as it was. *)
Lemma run_stays_inside (body : list Stmt) :
  forallb stays_inside body = true ->
  forall (locals : Locals) (s1 s2 : Store),
    fst (run body locals s1) = fst (run body locals s2) /\
    snd (run body locals s1) = s1.
Proof.
  induction body as [|stmt body IH]; intros Hbody locals s1 s2.
  - split; reflexivity.
  - cbn [forallb] in Hbody. apply andb_true_iff in Hbody as [Hstmt Hbody].
    destruct stmt as [x e | attr e | e | e | cond result | e];
      cbn [stays_inside] in Hstmt; try discriminate; cbn [run].
    + rewrite (eval_reads_locals_only locals e s1 s2 Hstmt).
      destruct (eval locals s2 e) as [v | err]; [apply (IH Hbody) | auto].
    + apply andb_true_iff in Hstmt as [Hc Hr].
      rewrite (eval_reads_locals_only locals cond s1 s2 Hc),
              (eval_reads_locals_only locals result s1 s2 Hr).
      destruct (eval locals s2 cond) as [v | err]; [|auto].
      destruct (is_true v); [auto | apply (IH Hbody)].
    + rewrite (eval_reads_locals_only locals e s1 s2 Hstmt). auto.
Qed.

(** The body computes the function [classify_document]. *)
Lemma classify_document_method_value (content filename : string) (st : Store) :
  fst (classify_document_method content filename st)
  = Ok (VStr (classify_document content filename)).
Proof.
  unfold classify_document_method, classify_document_body, classify_document.
  cbn [run eval lookup String.eqb Ascii.eqb Bool.eqb andb].
  rewrite !any_in_strings. cbn [is_true].
  repeat match goal with
         | |- context [if ?b then _ else _] => destruct b; try reflexivity
         end.
Qed.

End MethodBodies.

(** C8. [classify_document] is deterministic and free of side effects.
    Its body, run statement by statement, returns the category that the
    function [classify_document] gives for the content and the file name:
    calls with equal arguments return equal categories whatever the
    states they are made in, and the state outside the call (the
    attributes of [self], what is printed and logged) is left as it
    was. *)
Theorem classify_document_pure :
  forall (content1 filename1 content2 filename2 : string) (s1 s2 : Store),
    content1 = content2 -> filename1 = filename2 ->
    result_of (classify_document_method content1 filename1) s1
    = result_of (classify_document_method content2 filename2) s2 /\
    result_of (classify_document_method content1 filename1) s1
    = Ok (VStr (classify_document content1 filename1)) /\
    state_after (classify_document_method content1 filename1) s1 = s1.
Proof.
  intros content1 filename1 content2 filename2 s1 s2 <- <-.
  unfold result_of, state_after.
  assert (Hbody : forallb stays_inside classify_document_body = true)
    by reflexivity.
  destruct (run_stays_inside classify_document_body Hbody
              [("filename", VStr filename1); ("content", VStr content1)] s1 s2)
    as [Hsame Hstate].
  repeat split.
  - exact Hsame.
  - apply classify_document_method_value.
  - exact Hstate.
Qed.

Lemma classify_document_pure_witness :
  result_of (classify_document_method "Invoice 42" "a.txt") empty_store
  = result_of (classify_document_method "Invoice 42" "a.txt")
              (mkStore [("logger", VStr "root")]
                       (mkOut ["Processing: a.txt"]
                              ["PDF extraction error: x"])) /\
  result_of (classify_document_method "Invoice 42" "a.txt") empty_store
  = Ok (VStr (classify_document "Invoice 42" "a.txt")) /\
  state_after (classify_document_method "Invoice 42" "a.txt") empty_store
  = empty_store.
Proof.
  apply (classify_document_pure "Invoice 42" "a.txt" "Invoice 42" "a.txt"
           empty_store
           (mkStore [("logger", VStr "root")]
                    (mkOut ["Processing: a.txt"] ["PDF extraction error: x"])));
    reflexivity.
Defined.

(** The call as [process_document] makes it agrees with the body: the
    category is the one the body returns. *)
Lemma classify_document_call_agrees (content filename : string) (st : Store) :
  result_of (classify_document_method content filename) st
  = match result_of (classify_document_call content filename) (console st) with
    | Ok category => Ok (VStr category)
    | Raise e => Raise e
    end.
Proof. apply classify_document_method_value. Qed.

(** A body that prints does write: the interpreter does not make every
    body pure. *)
Example traced_body_writes :
  forallb stays_inside traced_body = false /\
  state_after (run traced_body
                   [("filename", VStr "a.txt"); ("content", VStr "Invoice 42")])
              empty_store
  = mkStore [] (mkOut ["classifying"] []).
Proof. split; reflexivity. Qed.

(* ===================================================================== *)
(** ** Computations that cannot raise *)
(* ===================================================================== *)

Section Totality.

Context {S : Type}.

Lemma returns_ret {A : Type} (a : A) : returns (ret (S := S) a).
Proof. intros s. now exists a, s. Qed.

Lemma returns_bind {A B : Type} (m : M S A) (k : A -> M S B) :
  returns m -> (forall a, returns (k a)) -> returns (bind m k).
Proof.
  intros Hm Hk s. destruct (Hm s) as [a [s' Hms]].
  destruct (Hk a s') as [b [s'' Hks]].
  exists b, s''. unfold bind. now rewrite Hms.
Qed.

Lemma returns_try_except {A : Type} (m : M S A) (h : string -> M S A) :
  (forall e, returns (h e)) -> returns (try_except m h).
Proof.
  intros Hh s. unfold try_except.
  destruct (m s) as [[a | e] s'].
  - now exists a, s'.
  - apply Hh.
Qed.

End Totality.

Lemma returns_print (line : string) : returns (print line).
Proof. intros o. now eexists _, _. Qed.

Lemma returns_logger_error (msg : string) : returns (logger_error msg).
Proof. intros o. now eexists _, _. Qed.

Create HintDb returns.
#[local] Hint Resolve returns_ret returns_print returns_logger_error : returns.

Ltac returns_handler :=
  apply returns_try_except; intros ?;
  apply returns_bind; [auto with returns | intros ?; auto with returns].

Lemma extract_text_returns (w : World) (p : Path) : returns (extract_text w p).
Proof. unfold extract_text. returns_handler. Qed.

Lemma process_document_returns (w : World) (file_path : string) :
  returns (process_document w file_path).
Proof. unfold process_document. returns_handler. Qed.

(* ===================================================================== *)
(** ** One document *)
(* ===================================================================== *)

Section OneDocument.

Variable w : World.

Lemma ext_in_spec (x : string) (l : list string) :
  ext_in x l = true <-> In x l.
Proof.
  unfold ext_in. rewrite existsb_exists. split.
  - intros [y [Hin Heq]]. apply String.eqb_eq in Heq. now subst.
  - intros Hin. exists x. split; [exact Hin | apply String.eqb_refl].
Qed.

Lemma extract_text_unsupported (p : Path) (o : Out) :
  ~ In (lower (suffix p)) supported_extensions ->
  extract_text w p o = (Ok "", o).
Proof.
  intros Hnot. unfold extract_text, try_except.
  assert (Hneq : forall e, In e supported_extensions ->
                           String.eqb (lower (suffix p)) e = false).
  { intros e He. apply String.eqb_neq. intros Heq. apply Hnot. now rewrite Heq. }
  unfold ext_in. cbn [existsb].
  rewrite !Hneq by (cbn; tauto). reflexivity.
Qed.

(** The outcomes of [process_document], by the answers of the
    environment. *)
Lemma process_document_cases (file_path : string) (o : Out) :
  let path := Path_of file_path in
  let o1 := state_after (print ("Processing: " ++ file_path)) o in
  match path_exists w (path_str path) with
  | Raise e => result_of (process_document w file_path) o = Ok (DocFailure e)
  | Ok false =>
      result_of (process_document w file_path) o
      = Ok (DocFailure ("File not found: " ++ file_path))
  | Ok true =>
      match extract_text w path o1 with
      | (Raise e, _) =>
          result_of (process_document w file_path) o = Ok (DocFailure e)
      | (Ok content, _) =>
          if String.eqb content ""
          then result_of (process_document w file_path) o
               = Ok (DocFailure "Could not extract text from document")
          else
            match st_size w (path_str path) with
            | Raise e =>
                result_of (process_document w file_path) o
                = Ok (DocFailure e)
            | Ok size =>
                result_of (process_document w file_path) o
                = Ok (DocSuccess (name path) size
                        (List.length (split_ws content))
                        (classify_document content (name path))
                        (generate_summary content
                           (classify_document content (name path)))
                        (content_preview content))
            end
      end
  end.
Proof.
  intros path o1. subst path o1.
  unfold result_of, state_after, process_document, process_document_body,
    try_except, bind, lift, classify_document_call, ret.
  cbn [print fst snd].
  destruct (path_exists w (path_str (Path_of file_path))) as [[|] | e];
    cbn; try reflexivity.
  destruct (extract_text w (Path_of file_path) _) as [[content | e] o2];
    cbn; try reflexivity.
  destruct (String.eqb content ""); cbn; try reflexivity.
  destruct (st_size w (path_str (Path_of file_path))) as [size | e];
    cbn; reflexivity.
Qed.

Lemma content_preview_length (content : string) :
  String.length (content_preview content) <= 203.
Proof.
  unfold content_preview.
  destruct (200 <? String.length content) eqn:Hlen.
  - rewrite length_append, length_take.
    change (String.length "...") with 3. lia.
  - apply Nat.ltb_ge in Hlen. lia.
Qed.

End OneDocument.

(** C3. On a path whose lower-cased suffix is none of the supported
    extensions [extract_text] returns the empty string (and writes
    nothing); [process_document] on such a path that exists returns the
    failure record with the message "Could not extract text from document",
    without raising. *)
Theorem unsupported_extension_not_extracted :
  forall (w : World),
    (forall (p : Path) (o : Out),
        ~ In (lower (suffix p)) supported_extensions ->
        extract_text w p o = (Ok "", o)) /\
    (forall (file_path : string) (o : Out),
        path_exists w (path_str (Path_of file_path)) = Ok true ->
        ~ In (lower (suffix (Path_of file_path))) supported_extensions ->
        result_of (process_document w file_path) o
        = Ok (DocFailure "Could not extract text from document")).
Proof.
  intros w. split.
  - apply extract_text_unsupported.
  - intros file_path o Hex Hnot.
    pose proof (process_document_cases w file_path o) as H. cbv zeta in H.
    rewrite Hex, (extract_text_unsupported w _ _ Hnot) in H. exact H.
Qed.

Lemma unsupported_extension_not_extracted_witness :
  result_of (process_document stat_fails_world "inbox/archive.zip") empty_out
  = Ok (DocFailure "Could not extract text from document").
Proof.
  apply (proj2 (unsupported_extension_not_extracted stat_fails_world)).
  - reflexivity.
  - vm_compute. intuition discriminate.
Defined.

(** C7. For a path that names no existing file [process_document] returns
    the failure record with the message "File not found: <path>".  It
    never raises: from every state it returns a record, and whenever the
    body of its [try] raises, the record is a failure whose error is the
    text of the exception.  Every failure record carries an error
    string. *)
Theorem process_document_never_raises :
  forall (w : World) (file_path : string) (o : Out),
    (path_exists w (path_str (Path_of file_path)) = Ok false ->
     result_of (process_document w file_path) o
     = Ok (DocFailure ("File not found: " ++ file_path))) /\
    (exists r, result_of (process_document w file_path) o = Ok r /\
               (success r = false -> exists msg, error r = Some msg)) /\
    (forall e, result_of (process_document_body w file_path) o = Raise e ->
               result_of (process_document w file_path) o
               = Ok (DocFailure e)).
Proof.
  intros w file_path o. split; [|split].
  - intros Hex.
    pose proof (process_document_cases w file_path o) as H. cbv zeta in H.
    now rewrite Hex in H.
  - destruct (process_document_returns w file_path o) as [r [o' Hr]].
    exists r. unfold result_of. rewrite Hr. split; [reflexivity|].
    destruct r; simpl; [eauto | discriminate].
  - intros e. unfold result_of, process_document, try_except.
    destruct (process_document_body w file_path o) as [[r | e'] o'];
      simpl; [discriminate|].
    intros [= ->]. reflexivity.
Qed.

Lemma process_document_never_raises_witness :
  result_of (process_document sample_world "docs/missing.txt") empty_out
  = Ok (DocFailure "File not found: docs/missing.txt") /\
  result_of (process_document stat_fails_world "x/notes.txt") empty_out
  = Ok (DocFailure "[Errno 13] Permission denied").
Proof.
  split.
  - apply (proj1 (process_document_never_raises
                    sample_world "docs/missing.txt" empty_out)).
    reflexivity.
  - apply (proj2 (proj2 (process_document_never_raises
                           stat_fails_world "x/notes.txt" empty_out))).
    reflexivity.
Defined.

(** C9. In every successful result of [process_document] the content
    preview is the extracted content itself when that has at most 200
    characters, and its first 200 characters followed by "..." otherwise;
    it never has more than 203 characters. *)
Theorem content_preview_truncates :
  forall (w : World) (file_path : string) (o : Out) (r : DocResult),
    result_of (process_document w file_path) o = Ok r ->
    success r = true ->
    exists content preview,
      result_of (extract_text w (Path_of file_path))
                (state_after (print ("Processing: " ++ file_path)) o)
      = Ok content /\
      content_preview_of r = Some preview /\
      (String.length content <= 200 -> preview = content) /\
      (200 < String.length content -> preview = take 200 content ++ "...") /\
      String.length preview <= 203.
Proof.
  intros w file_path o r Hr Hs.
  pose proof (process_document_cases w file_path o) as H. cbv zeta in H.
  unfold result_of at 1.
  destruct (path_exists w (path_str (Path_of file_path))) as [[|] | e];
    try (rewrite H in Hr; injection Hr as <-; discriminate).
  destruct (extract_text w (Path_of file_path) _) as [[content | e] o2];
    try (rewrite H in Hr; injection Hr as <-; discriminate).
  destruct (String.eqb content "");
    try (rewrite H in Hr; injection Hr as <-; discriminate).
  destruct (st_size w (path_str (Path_of file_path))) as [size | e];
    try (rewrite H in Hr; injection Hr as <-; discriminate).
  rewrite H in Hr. injection Hr as <-.
  exists content, (content_preview content). simpl.
  repeat split.
  - intros Hle. unfold content_preview.
    apply Nat.ltb_ge in Hle. now rewrite Hle.
  - intros Hlt. unfold content_preview.
    apply Nat.ltb_lt in Hlt. now rewrite Hlt.
  - apply content_preview_length.
Qed.

Lemma content_preview_truncates_witness :
  exists content preview,
    result_of (extract_text sample_world (Path_of "docs/a.txt"))
              (state_after (print ("Processing: " ++ "docs/a.txt")) empty_out)
    = Ok content /\
    content_preview_of sample_result = Some preview /\
    (String.length content <= 200 -> preview = content) /\
    (200 < String.length content -> preview = take 200 content ++ "...") /\
    String.length preview <= 203.
Proof.
  apply (content_preview_truncates sample_world "docs/a.txt" empty_out
           sample_result); reflexivity.
Defined.

(* ===================================================================== *)
(** ** A directory *)
(* ===================================================================== *)

Ltac pair_eq :=
  repeat match goal with
         | |- (_, _) = (_, _) => f_equal
         | |- Ok _ = Ok _ => f_equal
         end; try reflexivity; try lia.

Section Batch.

Variable w : World.

Lemma count_split (results : list DocResult) :
  count_successful results + count_failed results = List.length results.
Proof.
  unfold count_successful, count_failed.
  induction results as [|r results IH]; simpl; [reflexivity|].
  destruct (success r); simpl; lia.
Qed.

(** The loop never stops early: it returns one result per file, each the
    result of [process_document] on that file, and has counted them. *)
Lemma process_files_spec (files : list Path) :
  forall (results : list DocResult) (successful failed : nat) (o : Out),
  exists rs o',
    process_files w files (results, successful, failed) o
    = (Ok ((results ++ rs)%list,
           successful + count_successful rs,
           failed + count_failed rs), o') /\
    Forall2 (fun file_path r =>
               exists o0, result_of (process_document w (path_str file_path)) o0
                          = Ok r)
            files rs.
Proof.
  unfold count_successful, count_failed.
  induction files as [|file_path files IH]; intros results successful failed o.
  - exists [], o. simpl. unfold ret.
    rewrite app_nil_r, !Nat.add_0_r. split; [reflexivity | constructor].
  - destruct (process_document_returns w (path_str file_path) o)
      as [r [o1 Hr]].
    cbn [process_files]. unfold bind at 1. rewrite Hr.
    destruct (success r) eqn:Hs.
    + destruct (IH (results ++ [r])%list (successful + 1) failed o1)
        as [rs [o' [Hrun Hall]]].
      exists (r :: rs), o'. split.
      * rewrite Hrun. cbn [filter]. rewrite Hs. cbn [negb List.length].
        rewrite <- app_assoc. cbn [app]. pair_eq.
      * constructor; [|exact Hall]. exists o. unfold result_of. now rewrite Hr.
    + destruct (IH (results ++ [r])%list successful (failed + 1) o1)
        as [rs [o' [Hrun Hall]]].
      exists (r :: rs), o'. split.
      * rewrite Hrun. cbn [filter]. rewrite Hs. cbn [negb List.length].
        rewrite <- app_assoc. cbn [app]. pair_eq.
      * constructor; [|exact Hall]. exists o. unfold result_of. now rewrite Hr.
Qed.

(** When every pattern finds nothing, nothing is found. *)
Lemma find_files_nothing (dir_path : Path) (exts : list string)
    (files : list Path) :
  (forall ext, In ext exts ->
               glob w dir_path ext = Ok [] /\
               glob w dir_path (upper ext) = Ok []) ->
  find_files w dir_path exts files = Ok files.
Proof.
  revert files. induction exts as [|ext exts IH]; intros files Hall.
  - reflexivity.
  - cbn [find_files].
    destruct (Hall ext (or_introl eq_refl)) as [-> ->].
    cbn [app]. rewrite app_nil_r. apply IH.
    intros e He. apply Hall. now right.
Qed.

End Batch.

(** C4. When the enumeration of a directory yields a non-empty list of
    files, [process_directory] returns a success record: [total_files] is
    the number of enumerated files, [results] has one entry per file (the
    result of [process_document] on it, in order), [successful] and
    [failed] count the entries with [success] true and false, and they add
    up to [total_files].  A file that fails does not stop the batch: with
    three documents that can be read and two that cannot, the record has
    [total_files = 5], [successful = 3], [failed = 2] and five results. *)
Theorem process_directory_counts :
  (forall (w : World) (directory_path : string) (o : Out) (files : list Path),
      path_exists w (path_str (Path_of directory_path)) = Ok true ->
      find_files w (Path_of directory_path) (set_order w) [] = Ok files ->
      files <> [] ->
      exists results,
        result_of (process_directory w directory_path) o
        = Ok (DirSuccess (List.length files) (count_successful results)
                         (count_failed results) results) /\
        List.length results = List.length files /\
        Forall2 (fun file_path r =>
                   exists o0,
                     result_of (process_document w (path_str file_path)) o0
                     = Ok r)
                files results /\
        count_successful results + count_failed results = List.length files) /\
  (exists results,
      result_of (process_directory sample_world "docs") empty_out
      = Ok (DirSuccess 5 3 2 results) /\
      List.length results = 5 /\
      count_successful results = 3 /\ count_failed results = 2).
Proof.
  split.
  - intros w directory_path o files Hex Hfiles Hne.
    destruct (process_files_spec w files [] 0 0 o) as [rs [o' [Hrun Hall]]].
    exists rs.
    assert (Hlen : List.length rs = List.length files).
    { symmetry. eapply Forall2_length. exact Hall. }
    repeat split.
    + unfold result_of, process_directory, try_except, bind, lift.
      rewrite Hex. cbn [negb]. rewrite Hfiles.
      destruct files as [|f files]; [contradiction|].
      rewrite Hrun. reflexivity.
    + exact Hlen.
    + exact Hall.
    + now rewrite count_split.
  - eexists. split; [vm_compute; reflexivity|]. repeat split.
Qed.

Lemma process_directory_counts_witness :
  exists results,
    result_of (process_directory caseless_world "docs") empty_out
    = Ok (DirSuccess
            (List.length [joinpath (Path_of "docs") "a.pdf";
                          joinpath (Path_of "docs") "a.pdf"])
            (count_successful results) (count_failed results) results) /\
    List.length results
    = List.length [joinpath (Path_of "docs") "a.pdf";
                   joinpath (Path_of "docs") "a.pdf"] /\
    Forall2 (fun file_path r =>
               exists o0,
                 result_of (process_document caseless_world (path_str file_path))
                           o0 = Ok r)
            [joinpath (Path_of "docs") "a.pdf";
             joinpath (Path_of "docs") "a.pdf"] results /\
    count_successful results + count_failed results
    = List.length [joinpath (Path_of "docs") "a.pdf";
                   joinpath (Path_of "docs") "a.pdf"].
Proof.
  apply (proj1 process_directory_counts caseless_world "docs" empty_out).
  - reflexivity.
  - reflexivity.
  - discriminate.
Defined.

(** C10. For a directory that exists and in which none of the extension
    patterns matches a file, [process_directory] returns the failure record
    with the message "No supported documents found", not a success record
    with zero counts. *)
Theorem process_directory_no_documents :
  forall (w : World) (directory_path : string) (o : Out),
    path_exists w (path_str (Path_of directory_path)) = Ok true ->
    (forall ext, In ext (set_order w) ->
                 glob w (Path_of directory_path) ext = Ok [] /\
                 glob w (Path_of directory_path) (upper ext) = Ok []) ->
    process_directory w directory_path o
    = (Ok (DirFailure "No supported documents found"), o).
Proof.
  intros w directory_path o Hex Hnone.
  unfold process_directory, try_except, bind, lift.
  rewrite Hex. cbn [negb].
  rewrite (find_files_nothing w _ _ [] Hnone). reflexivity.
Qed.

Lemma process_directory_no_documents_witness :
  process_directory stat_fails_world "empty" empty_out
  = (Ok (DirFailure "No supported documents found"), empty_out).
Proof.
  apply process_directory_no_documents.
  - reflexivity.
  - intros ext _. split; reflexivity.
Defined.

(* ===================================================================== *)
(** ** File discovery *)
(* ===================================================================== *)

Lemma scandir_entries (w : World) (p : string) (entries : list string) :
  scandir w p = Ok entries -> listing w p = Entries entries.
Proof.
  unfold scandir. destruct (listing w p); [|discriminate ..].
  now intros [= ->].
Qed.

Section Discovery.

Variable w : World.
Variable dir_path : Path.
Variable entries : list string.

Hypothesis scan : scandir w (path_str dir_path) = Ok entries.

Lemma find_files_scan (exts : list string) (files : list Path) :
  find_files w dir_path exts files
  = Ok (files ++ flat_map (round_finds w dir_path entries) exts)%list.
Proof.
  revert files. induction exts as [|ext exts IH]; intros files.
  - cbn. now rewrite app_nil_r.
  - cbn [find_files flat_map]. unfold glob.
    rewrite (scandir_entries w _ _ scan).
    rewrite IH. unfold round_finds. now rewrite <- !app_assoc.
Qed.

Lemma joinpath_inj (a b : string) :
  joinpath dir_path a = joinpath dir_path b -> a = b.
Proof.
  unfold joinpath. intros [= H]. now apply app_inj_tail in H.
Qed.

Hypothesis distinct : NoDup entries.

(** A pattern contributes an entry once if it matches it, and not at all
    otherwise. *)
Lemma count_matches (f : string -> bool) (entry : string) :
  In entry entries ->
  count_occ Path_eq_dec (map (joinpath dir_path) (filter f entries))
            (joinpath dir_path entry)
  = if f entry then 1 else 0.
Proof.
  intros Hin.
  rewrite <- (count_occ_map (joinpath dir_path) string_dec Path_eq_dec
                            joinpath_inj).
  destruct (f entry) eqn:Hf.
  - apply (proj1 (NoDup_count_occ' string_dec _)).
    + now apply NoDup_filter.
    + apply filter_In. now split.
  - apply count_occ_not_In. rewrite filter_In. intros [_ H]. congruence.
Qed.

Lemma count_found (ext entry : string) :
  In entry entries ->
  count_occ Path_eq_dec (round_finds w dir_path entries ext)
            (joinpath dir_path entry)
  = (if fnmatch_star (case_sensitive w) ext entry then 1 else 0)
    + (if fnmatch_star (case_sensitive w) (upper ext) entry then 1 else 0).
Proof.
  intros Hin. unfold round_finds. rewrite count_occ_app.
  now rewrite !count_matches.
Qed.

(** The number of times an entry is discovered does not depend on the
    order in which the set of extensions is iterated. *)
Lemma count_discovered (entry : string) (files : list Path) :
  In entry entries ->
  Permutation (set_order w) supported_extensions ->
  find_files w dir_path (set_order w) [] = Ok files ->
  count_occ Path_eq_dec files (joinpath dir_path entry)
  = list_sum (map (fun p => if fnmatch_star (case_sensitive w) p entry
                            then 1 else 0)
                  (patterns supported_extensions)).
Proof.
  intros Hin Hperm Hfiles.
  rewrite find_files_scan in Hfiles. injection Hfiles as <-. cbn [app].
  rewrite (proj1 (Permutation_count_occ Path_eq_dec _ _)
                 (Permutation_flat_map (round_finds w dir_path entries)
                                       Hperm)).
  unfold supported_extensions, patterns, list_sum.
  cbn [flat_map map].
  rewrite !count_occ_app, !count_found by exact Hin.
  cbn [count_occ app fold_right map flat_map]. lia.
Qed.

End Discovery.

Section Suffix.

Lemma rfind_dot_bound (s : string) (i : nat) :
  rfind_dot s = Some i -> i < String.length s.
Proof.
  revert i. induction s as [|c s IH]; intros i; simpl; [discriminate|].
  destruct (rfind_dot s) as [j|].
  - intros [= <-]. specialize (IH j eq_refl). lia.
  - destruct (Ascii.eqb c "."); [intros [= <-]; lia | discriminate].
Qed.

(** The name of a path ends in its suffix. *)
Lemma name_ends_in_suffix (p : Path) :
  exists stem, name p = stem ++ suffix p.
Proof.
  unfold suffix. destruct (rfind_dot (name p)) as [i|].
  - destruct ((0 <? i) && (i <? String.length (name p) - 1)).
    + exists (take i (name p)). symmetry. apply take_drop.
    + exists (name p). now rewrite append_empty_r.
  - exists (name p). now rewrite append_empty_r.
Qed.

Lemma name_joinpath (dir_path : Path) (entry : string) :
  name (joinpath dir_path entry) = entry.
Proof. unfold name, joinpath. cbn [parts]. apply last_last. Qed.

End Suffix.

(** How often an entry is discovered whose suffix is spelled in one of the
    two ways the loop asks for. *)
Lemma count_spelled (w : World) (dir_path : Path) (entries : list string)
    (entry : string) (files : list Path) :
  Permutation (set_order w) supported_extensions ->
  scandir w (path_str dir_path) = Ok entries ->
  NoDup entries ->
  In entry entries ->
  In (suffix (joinpath dir_path entry)) (patterns supported_extensions) ->
  find_files w dir_path (set_order w) [] = Ok files ->
  count_occ Path_eq_dec files (joinpath dir_path entry)
  = if case_sensitive w then 1 else 2.
Proof.
  intros Hperm Hscan Hnodup Hin Hsfx Hfiles.
  rewrite (count_discovered w dir_path entries Hscan Hnodup entry _ Hin Hperm
                            Hfiles).
  destruct (name_ends_in_suffix (joinpath dir_path entry)) as [stem Hname].
  rewrite name_joinpath in Hname.
  remember (suffix (joinpath dir_path entry)) as sfx eqn:Hsfx_def.
  clear Hsfx_def Hfiles.
  unfold fnmatch_star, endswith. rewrite Hname, lower_app, !rev_app.
  cbn in Hsfx.
  destruct (case_sensitive w);
    repeat (destruct Hsfx as [Heq | Hsfx]; [rewrite <- Heq; reflexivity|]);
    destruct Hsfx.
Qed.

(** C5, as the code has it.  Discovery looks for each extension in two
    spellings, all lower case and all upper case: every directory entry
    whose suffix is one of .pdf, .doc, .docx, .txt, .jpg, .jpeg, .png or
    one of .PDF, .DOC, .DOCX, .TXT, .JPG, .JPEG, .PNG is in the batch,
    whatever the order in which the set of extensions is iterated, and
    under case-sensitive matching it is there exactly once. *)
Theorem discovery_exact_case :
  forall (w : World) (dir_path : Path) (entries : list string)
         (entry : string),
    Permutation (set_order w) supported_extensions ->
    scandir w (path_str dir_path) = Ok entries ->
    NoDup entries ->
    In entry entries ->
    In (suffix (joinpath dir_path entry)) (patterns supported_extensions) ->
    exists files,
      find_files w dir_path (set_order w) [] = Ok files /\
      In (joinpath dir_path entry) files /\
      (case_sensitive w = true ->
       count_occ Path_eq_dec files (joinpath dir_path entry) = 1).
Proof.
  intros w dir_path entries entry Hperm Hscan Hnodup Hin Hsfx.
  eexists. split; [apply (find_files_scan w dir_path entries Hscan)|].
  pose proof (count_spelled w dir_path entries entry _ Hperm Hscan Hnodup Hin
                            Hsfx (find_files_scan w dir_path entries Hscan _ _))
    as Hcount.
  split.
  - apply (count_occ_In Path_eq_dec). rewrite Hcount.
    destruct (case_sensitive w); lia.
  - intros Hcs. now rewrite Hcount, Hcs.
Qed.

Lemma discovery_exact_case_witness :
  exists files,
    find_files sample_world (Path_of "docs") (set_order sample_world) []
    = Ok files /\
    In (joinpath (Path_of "docs") "c.TXT") files /\
    (case_sensitive sample_world = true ->
     count_occ Path_eq_dec files (joinpath (Path_of "docs") "c.TXT") = 1).
Proof.
  apply (discovery_exact_case sample_world (Path_of "docs")
           ["a.txt"; "b.txt"; "c.TXT"; "d.pdf"; "e.png"] "c.TXT").
  - apply Permutation_refl.
  - reflexivity.
  - repeat constructor; cbn; intuition discriminate.
  - cbn; auto.
  - cbn; auto 20.
Defined.

(** C5, as the claim has it, fails: a file whose extension equals a
    supported one up to case, but is spelled in mixed case, is not
    discovered under case-sensitive matching; the directory that holds
    only report.Pdf is reported to hold no supported document. *)
Lemma discovery_misses_mixed_case :
  ~ (forall (w : World) (dir_path : Path) (entries : list string)
            (entry : string),
        Permutation (set_order w) supported_extensions ->
        scandir w (path_str dir_path) = Ok entries ->
        NoDup entries ->
        In entry entries ->
        In (lower (suffix (joinpath dir_path entry))) supported_extensions ->
        included_once w dir_path entry) /\
  In (lower (suffix (joinpath (Path_of "docs") "report.Pdf")))
     supported_extensions /\
  process_directory mixed_case_world "docs" empty_out
  = (Ok (DirFailure "No supported documents found"), empty_out).
Proof.
  split; [|split].
  - intros Hclaim.
    destruct (Hclaim mixed_case_world (Path_of "docs") ["report.Pdf"]
                     "report.Pdf") as [files [Hfiles Hcount]].
    + apply Permutation_refl.
    + reflexivity.
    + repeat constructor. cbn. tauto.
    + cbn; auto.
    + cbn; auto.
    + vm_compute in Hfiles. injection Hfiles as <-. discriminate.
  - cbn; auto.
  - reflexivity.
Qed.

(* ===================================================================== *)
(** ** The stock data tool *)
(* ===================================================================== *)

Import StockAnalysis.

Section Retry.

Variable mk : Market.
Variable symbol : string.
Variable t : Trace.

Lemma run_first_ok (data : StockData) :
  yf_data mk (requests t) symbol = Ok data ->
  _run mk symbol t
  = (render report_template data "",
     mkTrace (requests t ++ [symbol])%list (printed t)).
Proof.
  intros Hdata. unfold _run, bind, try_fetch_stock.
  rewrite Hdata. reflexivity.
Qed.

Lemma run_failed_suffixed (e : string) :
  endswith ".NS" symbol = true ->
  yf_data mk (requests t) symbol = Raise e ->
  _run mk symbol t
  = (Ok ("Error fetching " ++ symbol ++ ": " ++ e),
     mkTrace (requests t ++ [symbol])%list (printed t)).
Proof.
  intros Hns He. unfold _run, bind, try_fetch_stock.
  rewrite He. cbn [fetch_success negb andb]. rewrite Hns. reflexivity.
Qed.

Lemma run_failed_retry (e : string) :
  endswith ".NS" symbol = false ->
  yf_data mk (requests t) symbol = Raise e ->
  let t2 :=
    mkTrace (requests t ++ [symbol; (symbol ++ ".NS")%string])%list
            (printed t
             ++ [("Trying " ++ symbol ++ ".NS for Indian stock...")%string])%list
  in
  _run mk symbol t =
  match yf_data mk (requests t ++ [symbol])%list (symbol ++ ".NS") with
  | Ok data => (render report_template data "", t2)
  | Raise e2 => (Ok ("Error fetching " ++ (symbol ++ ".NS") ++ ": " ++ e2), t2)
  end.
Proof.
  intros Hns He t2. subst t2. unfold _run, bind, try_fetch_stock at 1.
  rewrite He. cbn [fetch_success negb andb]. rewrite Hns. cbn [negb].
  unfold tool_print, try_fetch_stock. cbn [requests printed].
  rewrite <- app_assoc. cbn [app].
  destruct (yf_data mk (requests t ++ [symbol])%list (symbol ++ ".NS"));
    reflexivity.
Qed.

End Retry.

(** C2. For a symbol that does not end in ".NS": when the first fetch
    fails, the tool makes exactly one more request, for the symbol with
    ".NS" appended, and none after it; when the first fetch succeeds there
    is no second request.  For a symbol that ends in ".NS" a failed first
    fetch is not retried, and the tool returns its error string. *)
Theorem run_retries_once :
  forall (mk : Market) (symbol : string) (t : Trace),
    (endswith ".NS" symbol = false ->
     forall e, yf_data mk (requests t) symbol = Raise e ->
               requests (state_after (_run mk symbol) t)
               = (requests t ++ [symbol; (symbol ++ ".NS")%string])%list) /\
    (forall data, yf_data mk (requests t) symbol = Ok data ->
                  requests (state_after (_run mk symbol) t)
                  = (requests t ++ [symbol])%list) /\
    (endswith ".NS" symbol = true ->
     forall e, yf_data mk (requests t) symbol = Raise e ->
               requests (state_after (_run mk symbol) t)
               = (requests t ++ [symbol])%list /\
               result_of (_run mk symbol) t
               = Ok ("Error fetching " ++ symbol ++ ": " ++ e)).
Proof.
  intros mk symbol t. unfold result_of, state_after. split; [|split].
  - intros Hns e He. rewrite (run_failed_retry mk symbol t e Hns He).
    destruct (yf_data mk (requests t ++ [symbol])%list (symbol ++ ".NS"));
      reflexivity.
  - intros data Hdata. now rewrite (run_first_ok mk symbol t data Hdata).
  - intros Hns e He. now rewrite (run_failed_suffixed mk symbol t e Hns He).
Qed.

Lemma run_retries_once_witness :
  requests (state_after (_run sample_market "TCS") empty_trace)
  = ["TCS"; "TCS.NS"] /\
  requests (state_after (_run sample_market "TCS.NS") empty_trace)
  = ["TCS.NS"] /\
  (requests (state_after (_run sample_market "INFY.NS") empty_trace)
   = ["INFY.NS"] /\
   result_of (_run sample_market "INFY.NS") empty_trace
   = Ok "Error fetching INFY.NS: No data found, symbol may be delisted").
Proof.
  split; [|split].
  - apply (proj1 (run_retries_once sample_market "TCS" empty_trace)
             eq_refl "No data found, symbol may be delisted" eq_refl).
  - apply (proj1 (proj2 (run_retries_once sample_market "TCS.NS" empty_trace))
             _ eq_refl).
  - apply (proj2 (proj2 (run_retries_once sample_market "INFY.NS" empty_trace))
             eq_refl "No data found, symbol may be delisted" eq_refl).
Defined.

(* ===================================================================== *)
(** ** Further properties of the classifier and the summary *)
(* ===================================================================== *)

Section CaseFolding.

Lemma lower_char_idem (c : ascii) : lower_char (lower_char c) = lower_char c.
Proof. destruct c as [[] [] [] [] [] [] [] []]; reflexivity. Qed.

Lemma lower_upper_char (c : ascii) : lower_char (upper_char c) = lower_char c.
Proof. destruct c as [[] [] [] [] [] [] [] []]; reflexivity. Qed.

Lemma lower_idem (s : string) : lower (lower s) = lower s.
Proof.
  induction s as [|c s IH]; simpl; [reflexivity|].
  now rewrite lower_char_idem, IH.
Qed.

Lemma lower_upper (s : string) : lower (upper s) = lower s.
Proof.
  induction s as [|c s IH]; simpl; [reflexivity|].
  now rewrite lower_upper_char, IH.
Qed.

Lemma any_keyword_comm (keywords : list string) (a b : string) :
  any_keyword keywords a b = any_keyword keywords b a.
Proof.
  unfold any_keyword. induction keywords as [|kw keywords IH]; simpl.
  - reflexivity.
  - now rewrite IH, (orb_comm (str_in kw a)).
Qed.

End CaseFolding.

(** X1. On ASCII text the classifier does not see letter case: a content
    and a file name of ASCII characters, put in upper case or in lower
    case, get the category of the originals. *)
Theorem classify_document_ignores_case :
  forall content filename,
    is_ascii content = true -> is_ascii filename = true ->
    classify_document (upper content) (upper filename)
    = classify_document content filename /\
    classify_document (lower content) (lower filename)
    = classify_document content filename.
Proof.
  intros content filename _ _. unfold classify_document.
  now rewrite !lower_upper, !lower_idem.
Qed.

Lemma classify_document_ignores_case_witness :
  classify_document (upper "Terms of the Agreement") (upper "Notes.TXT")
  = classify_document "Terms of the Agreement" "Notes.TXT" /\
  classify_document (lower "Terms of the Agreement") (lower "Notes.TXT")
  = classify_document "Terms of the Agreement" "Notes.TXT".
Proof.
  apply (classify_document_ignores_case "Terms of the Agreement" "Notes.TXT");
    reflexivity.
Defined.

(** X2. Content and file name weigh the same: a keyword counts wherever
    it occurs, so exchanging the two arguments does not change the
    category. *)
Theorem classify_document_symmetric :
  forall content filename,
    classify_document content filename = classify_document filename content.
Proof.
  intros content filename. unfold classify_document.
  now rewrite !(any_keyword_comm _ (lower content)).
Qed.

Section Summary.

Lemma isspace_not_dot (c : ascii) : isspace c = true -> Ascii.eqb c "." = false.
Proof. destruct c as [[] [] [] [] [] [] [] []]; vm_compute; congruence. Qed.

Lemma split_ws_only_space (s : string) :
  only_space s = true -> split_ws s = [].
Proof.
  unfold split_ws. induction s as [|c s IH]; simpl; [reflexivity|].
  intros H. apply andb_true_iff in H as [Hc Hs]. rewrite Hc. now apply IH.
Qed.

Lemma split_on_dot_only_space (s : string) :
  only_space s = true -> split_on "." s = [s].
Proof.
  induction s as [|c s IH]; simpl; [reflexivity|].
  intros H. apply andb_true_iff in H as [Hc Hs].
  rewrite (isspace_not_dot c Hc), (IH Hs). reflexivity.
Qed.

Lemma lstrip_only_space (s : string) : only_space s = true -> lstrip s = "".
Proof.
  induction s as [|c s IH]; simpl; [reflexivity|].
  intros H. apply andb_true_iff in H as [Hc Hs]. rewrite Hc. now apply IH.
Qed.

Lemma eqb_append_dots (s : string) : String.eqb (s ++ "...") "" = false.
Proof. destruct s; reflexivity. Qed.

End Summary.

(** X3. The summary is the sentence "This is a <category> document with
    <n> words. ", with <n> the number of words of the content, followed
    either by nothing or by "Content preview: " and a preview of at most
    203 characters. *)
Theorem generate_summary_shape :
  forall content category,
  exists first_part,
    String.length first_part <= 203 /\
    generate_summary content category
    = "This is a " ++ category ++ " document with "
      ++ str_of_nat (List.length (split_ws content)) ++ " words. "
      ++ (if String.eqb first_part "" then ""
          else "Content preview: " ++ first_part).
Proof.
  intros content category. unfold generate_summary.
  set (joined := strip (join ". " (firstn 3 (split_on "." content)))).
  destruct (200 <? String.length joined) eqn:Hlen.
  - exists (take 200 joined ++ "..."). split.
    + rewrite length_append, length_take.
      change (String.length "...") with 3. lia.
    + rewrite eqb_append_dots. cbn [negb].
      now rewrite !append_assoc.
  - exists joined. apply Nat.ltb_ge in Hlen. split; [lia|].
    destruct (String.eqb joined ""); cbn [negb];
      rewrite ?append_assoc; reflexivity.
Qed.

(** X4. For a content of white space only the summary counts no word and
    has no preview. *)
Theorem generate_summary_blank :
  forall content category,
    only_space content = true ->
    generate_summary content category
    = "This is a " ++ category ++ " document with 0 words. ".
Proof.
  intros content category Hsp. unfold generate_summary.
  rewrite (split_ws_only_space content Hsp), (split_on_dot_only_space content Hsp).
  cbn [firstn join List.length]. unfold strip.
  rewrite (lstrip_only_space content Hsp). reflexivity.
Qed.

Lemma generate_summary_blank_witness :
  generate_summary ("  " ++ newline ++ " ") "general"
  = "This is a general document with 0 words. ".
Proof.
  apply (generate_summary_blank ("  " ++ newline ++ " ") "general").
  reflexivity.
Defined.

(* ===================================================================== *)
(** ** Further properties of extraction and of one document *)
(* ===================================================================== *)

Section Extraction.

Variable w : World.

Lemma guarded_call (o : Out) (r : Exc string) (record : string -> string) :
  quiet_or_logged o
    (try_except (lift r) (fun e => logger_error (record e) ;;; ret "") o).
Proof.
  unfold quiet_or_logged, try_except, lift, bind, logger_error, ret.
  destruct r as [content | e]; cbn.
  - exists content, o. auto.
  - eexists "", _. split; [reflexivity|]. cbn. split; [reflexivity|].
    right. split; [reflexivity|]. now eexists.
Qed.

Lemma try_except_quiet (o : Out) (m : M Out string) (h : string -> M Out string) :
  quiet_or_logged o (m o) -> quiet_or_logged o (try_except m h o).
Proof.
  intros [content [o' [Heq H]]]. exists content, o'.
  unfold try_except. rewrite Heq. auto.
Qed.

Lemma extract_pdf_text_quiet (p : Path) (o : Out) :
  quiet_or_logged o (extract_pdf_text w p o).
Proof.
  unfold extract_pdf_text.
  pose proof (guarded_call o
                (match pdf_pages w (path_str p) with
                 | Ok pages => pdf_loop pages ""
                 | Raise e => Raise e
                 end) (fun e => "PDF extraction error: " ++ e)) as H.
  unfold try_except, bind, lift in *.
  destruct (pdf_pages w (path_str p)); exact H.
Qed.

Lemma extract_word_text_quiet (p : Path) (o : Out) :
  quiet_or_logged o (extract_word_text w p o).
Proof.
  unfold extract_word_text.
  pose proof (guarded_call o
                (match docx_paragraphs w (path_str p) with
                 | Ok paragraphs => Ok (join newline paragraphs)
                 | Raise e => Raise e
                 end) (fun e => "Word extraction error: " ++ e)) as H.
  unfold try_except, bind, lift, ret in *.
  destruct (docx_paragraphs w (path_str p)); exact H.
Qed.

Lemma extract_image_text_quiet (p : Path) (o : Out) :
  quiet_or_logged o (extract_image_text w p o).
Proof.
  apply (guarded_call o _ (fun e => "OCR extraction error: " ++ e)).
Qed.

Lemma extract_text_quiet (p : Path) (o : Out) :
  quiet_or_logged o (extract_text w p o).
Proof.
  unfold extract_text.
  destruct (String.eqb (lower (suffix p)) ".pdf");
    [apply try_except_quiet, extract_pdf_text_quiet|].
  destruct (ext_in (lower (suffix p)) [".doc"; ".docx"]);
    [apply try_except_quiet, extract_word_text_quiet|].
  destruct (ext_in (lower (suffix p)) [".jpg"; ".jpeg"; ".png"]);
    [apply try_except_quiet, extract_image_text_quiet|].
  destruct (String.eqb (lower (suffix p)) ".txt").
  - apply (guarded_call o (read_text w (path_str p))
             (fun e => "Text extraction error for " ++ path_str p ++ ": " ++ e)).
  - exists "", o. auto.
Qed.

Lemma pdf_loop_all_read (texts : list string) (text : string) :
  pdf_loop (map Ok texts) text = Ok (text ++ pdf_text texts).
Proof.
  revert text. induction texts as [|t texts IH]; intros text.
  - cbn. now rewrite append_empty_r.
  - cbn [map pdf_loop pdf_text]. rewrite IH. now rewrite !append_assoc.
Qed.

Lemma pdf_text_not_empty (texts : list string) :
  texts <> [] -> String.eqb (pdf_text texts) "" = false.
Proof.
  destruct texts as [|t texts]; [congruence|]. intros _.
  cbn [pdf_text]. destruct t; reflexivity.
Qed.

End Extraction.

(** X5. [extract_text] never raises and never prints.  Either it leaves
    the log as it was, or it has logged one record and returns the empty
    string: an error of an extraction library shows as empty text. *)
Theorem extract_text_contains_errors :
  forall (w : World) (p : Path) (o : Out),
  exists content o',
    extract_text w p o = (Ok content, o') /\
    stdout o' = stdout o /\
    (errlog o' = errlog o \/
     content = "" /\ exists msg, errlog o' = (errlog o ++ [msg])%list).
Proof. exact extract_text_quiet. Qed.

(** X6. A PDF whose pages are all read gives the page texts, each
    followed by a line end.  So a PDF with at least one page is a
    success even when no page has any text: the content is then made of
    line ends only, and "Could not extract text" is not reported. *)
Theorem pdf_with_pages_is_a_success :
  forall (w : World) (file_path : string) (o : Out) (texts : list string)
         (size : nat),
    path_exists w (path_str (Path_of file_path)) = Ok true ->
    lower (suffix (Path_of file_path)) = ".pdf" ->
    pdf_pages w (path_str (Path_of file_path)) = Ok (map Ok texts) ->
    texts <> [] ->
    st_size w (path_str (Path_of file_path)) = Ok size ->
    result_of (process_document w file_path) o
    = Ok (DocSuccess (name (Path_of file_path)) size
            (List.length (split_ws (pdf_text texts)))
            (classify_document (pdf_text texts) (name (Path_of file_path)))
            (generate_summary (pdf_text texts)
               (classify_document (pdf_text texts)
                                  (name (Path_of file_path))))
            (content_preview (pdf_text texts))).
Proof.
  intros w file_path o texts size Hex Hsfx Hpages Hne Hsize.
  pose proof (process_document_cases w file_path o) as H. cbv zeta in H.
  rewrite Hex in H.
  assert (Hext : forall o1, extract_text w (Path_of file_path) o1
                            = (Ok (pdf_text texts), o1)).
  { intros o1. unfold extract_text. rewrite Hsfx. cbn [String.eqb Ascii.eqb].
    unfold try_except, extract_pdf_text, bind, lift.
    rewrite Hpages, pdf_loop_all_read. reflexivity. }
  rewrite Hext, (pdf_text_not_empty texts Hne), Hsize in H. exact H.
Qed.

Lemma pdf_with_pages_is_a_success_witness :
  result_of (process_document blank_pdf_world "scans/page.PDF") empty_out
  = Ok (DocSuccess "page.PDF" 2048 0 "general"
          "This is a general document with 0 words. "
          (newline ++ newline)).
Proof.
  apply (pdf_with_pages_is_a_success blank_pdf_world "scans/page.PDF"
           empty_out [""; ""] 2048); try reflexivity.
  discriminate.
Defined.

(** X7. What one document writes.  [process_document] prints
    "Processing: <path>" first and, for a success only, the three
    confirmation lines; nothing already written is lost.  It logs at most
    one record, and none for a success. *)
Theorem process_document_output :
  forall (w : World) (file_path : string) (o : Out),
  exists r o' logged,
    process_document w file_path o = (Ok r, o') /\
    stdout o' = (stdout o ++ ("Processing: " ++ file_path)%string
                 :: confirmation_lines r)%list /\
    errlog o' = (errlog o ++ logged)%list /\
    List.length logged <= 1 /\
    (success r = true -> logged = []).
Proof.
  intros w file_path o.
  cbv beta iota zeta delta [process_document process_document_body try_except
                              bind lift print].
  set (o1 := mkOut (stdout o ++ [("Processing: " ++ file_path)%string])%list
                   (errlog o)).
  destruct (path_exists w (path_str (Path_of file_path))) as [[|] | e].
  - destruct (extract_text_quiet w (Path_of file_path) o1)
      as [content [o2 [Heq [Hout Hlog]]]].
    cbn [negb]. rewrite Heq.
    destruct (String.eqb content "") eqn:Hempty.
    + destruct Hlog as [Hlog | [_ [msg Hlog]]].
      * eexists _, o2, []. cbn. rewrite Hout, Hlog, app_nil_r.
        repeat split; auto.
      * eexists _, o2, [msg]. cbn. rewrite Hout, Hlog.
        repeat split; auto. discriminate.
    + assert (Hlog' : errlog o2 = errlog o).
      { destruct Hlog as [Hlog | [Hc _]]; [exact Hlog|].
        subst content. discriminate. }
      unfold classify_document_call, ret.
      destruct (st_size w (path_str (Path_of file_path))) as [size | e].
      * eexists _, _, []. cbn. rewrite Hout, Hlog', app_nil_r. cbn.
        rewrite <- !app_assoc. repeat split; auto.
      * eexists _, _, [_]. cbn. rewrite Hout, Hlog'. cbn.
        repeat split; auto. discriminate.
  - eexists _, _, []. cbn. rewrite app_nil_r. repeat split; auto.
  - eexists _, _, [_]. cbn. repeat split; auto. discriminate.
Qed.

(** X8. [process_document] succeeds exactly when the path exists, the
    extracted text is not empty and the size of the file can be read. *)
Theorem process_document_succeeds_iff :
  forall (w : World) (file_path : string) (o : Out) (r : DocResult),
    result_of (process_document w file_path) o = Ok r ->
    (success r = true <->
     path_exists w (path_str (Path_of file_path)) = Ok true /\
     (exists content,
         result_of (extract_text w (Path_of file_path))
                   (state_after (print ("Processing: " ++ file_path)) o)
         = Ok content /\ content <> "") /\
     (exists size, st_size w (path_str (Path_of file_path)) = Ok size)).
Proof.
  intros w file_path o r Hr.
  pose proof (process_document_cases w file_path o) as H. cbv zeta in H.
  unfold result_of at 1.
  destruct (path_exists w (path_str (Path_of file_path))) as [[|] | e].
  - destruct (extract_text w (Path_of file_path) _) as [[content | e] o2].
    + destruct (String.eqb_spec content "") as [Hc | Hc].
      * rewrite H in Hr. injection Hr as <-. split; [discriminate|].
        intros [_ [[c [[= <-] Hne]] _]]. contradiction.
      * destruct (st_size w (path_str (Path_of file_path))) as [size | e].
        -- rewrite H in Hr. injection Hr as <-. split; [|reflexivity].
           intros _. split; [reflexivity|]. split.
           ++ exists content. split; [reflexivity | exact Hc].
           ++ now exists size.
        -- rewrite H in Hr. injection Hr as <-. split; [discriminate|].
           intros [_ [_ [size Hs]]]. discriminate.
    + rewrite H in Hr. injection Hr as <-. split; [discriminate|].
      intros [_ [[c [Hc _]] _]]. discriminate.
  - rewrite H in Hr. injection Hr as <-. split; [discriminate|].
    intros [Hex _]. discriminate.
  - rewrite H in Hr. injection Hr as <-. split; [discriminate|].
    intros [Hex _]. discriminate.
Qed.

Lemma process_document_succeeds_iff_witness :
  success sample_result = true <->
  path_exists sample_world (path_str (Path_of "docs/a.txt")) = Ok true /\
  (exists content,
      result_of (extract_text sample_world (Path_of "docs/a.txt"))
                (state_after (print ("Processing: " ++ "docs/a.txt")) empty_out)
      = Ok content /\ content <> "") /\
  (exists size, st_size sample_world (path_str (Path_of "docs/a.txt")) = Ok size).
Proof.
  apply (process_document_succeeds_iff sample_world "docs/a.txt" empty_out
           sample_result).
  reflexivity.
Defined.

(* ===================================================================== *)
(** ** Further properties of a directory run *)
(* ===================================================================== *)

Section DirectoryErrors.

Variable w : World.

Lemma process_directory_returns (directory_path : string) :
  returns (process_directory w directory_path).
Proof.
  unfold process_directory. apply returns_try_except.
  intros e. apply returns_ret.
Qed.

Lemma find_files_scan_fails (dir_path : Path) (exts : list string)
    (files : list Path) (e : string) :
  listing w (path_str dir_path) = ScanFails e ->
  exts <> [] ->
  find_files w dir_path exts files = Raise e.
Proof.
  intros Hscan Hne. destruct exts as [|ext exts]; [contradiction|].
  cbn [find_files]. unfold glob. now rewrite Hscan.
Qed.

Lemma find_files_unlistable (dir_path : Path) (exts : list string)
    (files : list Path) :
  listing w (path_str dir_path) = NotADirectory \/
  (exists e, listing w (path_str dir_path) = PermissionDenied e) ->
  find_files w dir_path exts files = Ok files.
Proof.
  intros Hlist. apply find_files_nothing. intros ext _.
  unfold glob. destruct Hlist as [-> | [e ->]]; split; reflexivity.
Qed.

End DirectoryErrors.

(** X9. [process_directory] never raises.  A directory that does not exist
    gives the failure "Directory not found: <path>".  A path that is no
    directory, and a directory that may not be listed (the listing raises
    [PermissionError], which [glob] swallows), give "No supported
    documents found".  Any other error met while the directory is listed
    gives a failure with the text of that error.  In all these cases no
    document is processed and nothing is written. *)
Theorem process_directory_contains_errors :
  forall (w : World) (directory_path : string) (o : Out),
    (exists r o', process_directory w directory_path o = (Ok r, o')) /\
    (path_exists w (path_str (Path_of directory_path)) = Ok false ->
     process_directory w directory_path o
     = (Ok (DirFailure ("Directory not found: " ++ directory_path)), o)) /\
    (path_exists w (path_str (Path_of directory_path)) = Ok true ->
     listing w (path_str (Path_of directory_path)) = NotADirectory \/
     (exists e, listing w (path_str (Path_of directory_path))
                = PermissionDenied e) ->
     process_directory w directory_path o
     = (Ok (DirFailure "No supported documents found"), o)) /\
    (forall e,
        path_exists w (path_str (Path_of directory_path)) = Ok true ->
        listing w (path_str (Path_of directory_path)) = ScanFails e ->
        set_order w <> [] ->
        process_directory w directory_path o = (Ok (DirFailure e), o)).
Proof.
  intros w directory_path o. split; [|split; [|split]].
  - apply process_directory_returns.
  - intros Hex. unfold process_directory, try_except, bind, lift.
    now rewrite Hex.
  - intros Hex Hlist.
    unfold process_directory, try_except, bind, lift.
    rewrite Hex. cbn [negb].
    now rewrite (find_files_unlistable w _ _ [] Hlist).
  - intros e Hex Hscan Hne.
    unfold process_directory, try_except, bind, lift.
    rewrite Hex. cbn [negb].
    now rewrite (find_files_scan_fails w _ _ [] e Hscan Hne).
Qed.

Lemma process_directory_contains_errors_witness :
  process_directory sample_world "archive" empty_out
  = (Ok (DirFailure "Directory not found: archive"), empty_out) /\
  process_directory unreadable_dir_world "vault" empty_out
  = (Ok (DirFailure "No supported documents found"), empty_out) /\
  process_directory failing_disk_world "vault" empty_out
  = (Ok (DirFailure "[Errno 5] Input/output error: 'vault'"), empty_out).
Proof.
  split; [|split].
  - apply (proj1 (proj2 (process_directory_contains_errors
                           sample_world "archive" empty_out))).
    reflexivity.
  - apply (proj1 (proj2 (proj2 (process_directory_contains_errors
                                  unreadable_dir_world "vault" empty_out)))).
    + reflexivity.
    + right. now eexists.
  - apply (proj2 (proj2 (proj2 (process_directory_contains_errors
                                  failing_disk_world "vault" empty_out)))).
    + reflexivity.
    + reflexivity.
    + discriminate.
Defined.

Section DiscoverySound.

Lemma in_patterns (exts : list string) (ext : string) :
  In ext exts -> In ext (patterns exts) /\ In (upper ext) (patterns exts).
Proof.
  intros Hin. unfold patterns. split; apply in_flat_map; exists ext;
    (split; [exact Hin | cbn; auto]).
Qed.

Lemma rfind_dot_app (a b : string) :
  rfind_dot (a ++ b)
  = match rfind_dot b with
    | Some i => Some (String.length a + i)
    | None => rfind_dot a
    end.
Proof.
  induction a as [|c a IH]; cbn [append rfind_dot String.length].
  - destruct (rfind_dot b); reflexivity.
  - rewrite IH. destruct (rfind_dot b); reflexivity.
Qed.

Lemma drop_app_length (a b : string) : drop (String.length a) (a ++ b) = b.
Proof. induction a as [|c a IH]; [reflexivity | exact IH]. Qed.

(** Each pattern is a dot followed by letters. *)
Lemma pattern_facts (pat : string) :
  In pat (patterns supported_extensions) ->
  rfind_dot pat = Some 0 /\ 4 <= String.length pat /\
  In (lower pat) supported_extensions.
Proof.
  intros Hin. cbn in Hin.
  repeat (destruct Hin as [<- | Hin];
          [repeat split; cbn; auto 10; lia|]).
  destruct Hin.
Qed.

Lemma suffix_of_spelled (dir_path : Path) (stem pat : string) :
  In pat (patterns supported_extensions) ->
  stem <> "" ->
  suffix (joinpath dir_path (stem ++ pat)) = pat.
Proof.
  intros Hpat Hstem. destruct (pattern_facts pat Hpat) as [Hdot [Hlen _]].
  unfold suffix. rewrite name_joinpath, rfind_dot_app, Hdot, Nat.add_0_r.
  rewrite length_append.
  assert (Hpos : 0 < String.length stem).
  { destruct stem; [contradiction | cbn; lia]. }
  replace ((0 <? String.length stem)
           && (String.length stem <? String.length stem + String.length pat - 1))
    with true.
  - apply drop_app_length.
  - symmetry. apply andb_true_iff. split; apply Nat.ltb_lt; lia.
Qed.

End DiscoverySound.

Lemma discovered_files_sound (w : World) (dir_path : Path)
    (entries : list string) (files : list Path) (file_path : Path) :
  Permutation (set_order w) supported_extensions ->
  scandir w (path_str dir_path) = Ok entries ->
  find_files w dir_path (set_order w) [] = Ok files ->
  In file_path files ->
  exists entry pat,
    In entry entries /\ file_path = joinpath dir_path entry /\
    In pat (patterns supported_extensions) /\
    fnmatch_star (case_sensitive w) pat entry = true /\
    (case_sensitive w = true -> exists stem, entry = stem ++ pat).
Proof.
  intros Hperm Hscan Hfiles Hin.
  rewrite (find_files_scan w dir_path entries Hscan) in Hfiles.
  injection Hfiles as <-. cbn [app] in Hin.
  apply in_flat_map in Hin as [ext [Hext Hin]].
  apply (Permutation_in _ Hperm) in Hext.
  destruct (in_patterns _ _ Hext) as [Hlow Hup].
  unfold round_finds in Hin.
  apply in_app_or in Hin as [Hin | Hin];
    apply in_map_iff in Hin as [entry [<- Hin]];
    apply filter_In in Hin as [Hentry Hmatch].
  - exists entry, ext. repeat split; auto.
    intros Hcs. rewrite Hcs in Hmatch. now apply endswith_spec.
  - exists entry, (upper ext). repeat split; auto.
    intros Hcs. rewrite Hcs in Hmatch. now apply endswith_spec.
Qed.

(** X10. Discovery finds nothing else: every discovered file is an entry
    of the directory that matches one of the fourteen patterns, and under
    case-sensitive matching its name ends in that pattern as it is
    spelled.  An entry with a mixed-case extension is therefore never
    discovered there. *)
Theorem discovered_files_match_a_pattern :
  forall (w : World) (dir_path : Path) (entries : list string)
         (files : list Path) (file_path : Path),
    Permutation (set_order w) supported_extensions ->
    scandir w (path_str dir_path) = Ok entries ->
    find_files w dir_path (set_order w) [] = Ok files ->
    In file_path files ->
    exists entry pat,
      In entry entries /\ file_path = joinpath dir_path entry /\
      In pat (patterns supported_extensions) /\
      fnmatch_star (case_sensitive w) pat entry = true /\
      (case_sensitive w = true -> exists stem, entry = stem ++ pat).
Proof.
  intros w dir_path entries files file_path.
  apply discovered_files_sound.
Qed.

Lemma discovered_files_match_a_pattern_witness :
  exists entry pat,
    In entry ["a.txt"; "b.txt"; "c.TXT"; "d.pdf"; "e.png"] /\
    joinpath (Path_of "docs") "c.TXT" = joinpath (Path_of "docs") entry /\
    In pat (patterns supported_extensions) /\
    fnmatch_star (case_sensitive sample_world) pat entry = true /\
    (case_sensitive sample_world = true -> exists stem, entry = stem ++ pat).
Proof.
  apply (discovered_files_match_a_pattern sample_world (Path_of "docs")
           ["a.txt"; "b.txt"; "c.TXT"; "d.pdf"; "e.png"]
           [joinpath (Path_of "docs") "d.pdf";
            joinpath (Path_of "docs") "a.txt";
            joinpath (Path_of "docs") "b.txt";
            joinpath (Path_of "docs") "c.TXT";
            joinpath (Path_of "docs") "e.png"]).
  - apply Permutation_refl.
  - reflexivity.
  - reflexivity.
  - cbn; auto.
Defined.

(** X11. Discovery and extraction agree.  Under case-sensitive matching
    every discovered file whose name is more than a bare pattern has a
    suffix that [extract_text] knows (after lower-casing); the only
    discovered files that [extract_text] treats as unsupported are those
    named exactly like a pattern, such as ".pdf". *)
Theorem discovered_files_are_supported :
  forall (w : World) (dir_path : Path) (entries : list string)
         (files : list Path) (file_path : Path),
    case_sensitive w = true ->
    Permutation (set_order w) supported_extensions ->
    scandir w (path_str dir_path) = Ok entries ->
    find_files w dir_path (set_order w) [] = Ok files ->
    In file_path files ->
    ~ In (name file_path) (patterns supported_extensions) ->
    In (lower (suffix file_path)) supported_extensions.
Proof.
  intros w dir_path entries files file_path Hcs Hperm Hscan Hfiles Hin Hbare.
  destruct (discovered_files_sound w dir_path entries files file_path
              Hperm Hscan Hfiles Hin)
    as [entry [pat [Hentry [-> [Hpat [Hmatch Hstem]]]]]].
  rewrite Hcs in Hmatch. apply endswith_spec in Hmatch as [stem ->].
  rewrite name_joinpath in Hbare.
  assert (Hne : stem <> "").
  { intros ->. apply Hbare. exact Hpat. }
  rewrite (suffix_of_spelled dir_path stem pat Hpat Hne).
  apply (pattern_facts pat Hpat).
Qed.

Lemma discovered_files_are_supported_witness :
  In (lower (suffix (joinpath (Path_of "docs") "c.TXT"))) supported_extensions.
Proof.
  apply (discovered_files_are_supported sample_world (Path_of "docs")
           ["a.txt"; "b.txt"; "c.TXT"; "d.pdf"; "e.png"]
           [joinpath (Path_of "docs") "d.pdf";
            joinpath (Path_of "docs") "a.txt";
            joinpath (Path_of "docs") "b.txt";
            joinpath (Path_of "docs") "c.TXT";
            joinpath (Path_of "docs") "e.png"]).
  - reflexivity.
  - apply Permutation_refl.
  - reflexivity.
  - reflexivity.
  - cbn; auto.
  - cbn. intuition discriminate.
Defined.

(** X12. Under a path flavour that matches without regard to case, both
    patterns of an extension match the same entries: every entry whose
    suffix is a supported extension up to case is put in the list of files
    twice, and so is processed and counted twice. *)
Theorem caseless_discovery_finds_twice :
  forall (w : World) (dir_path : Path) (entries : list string)
         (entry : string) (files : list Path),
    case_sensitive w = false ->
    Permutation (set_order w) supported_extensions ->
    scandir w (path_str dir_path) = Ok entries ->
    NoDup entries ->
    In entry entries ->
    In (lower (suffix (joinpath dir_path entry))) supported_extensions ->
    find_files w dir_path (set_order w) [] = Ok files ->
    count_occ Path_eq_dec files (joinpath dir_path entry) = 2.
Proof.
  intros w dir_path entries entry files Hcs Hperm Hscan Hnodup Hin Hsfx Hfiles.
  rewrite (count_discovered w dir_path entries Hscan Hnodup entry _ Hin Hperm
                            Hfiles).
  destruct (name_ends_in_suffix (joinpath dir_path entry)) as [stem Hname].
  rewrite name_joinpath in Hname.
  remember (suffix (joinpath dir_path entry)) as sfx eqn:Hsfx_def.
  clear Hsfx_def Hfiles.
  rewrite Hcs. unfold fnmatch_star, endswith.
  rewrite Hname, lower_app, rev_app.
  cbn in Hsfx.
  repeat (destruct Hsfx as [Heq | Hsfx]; [rewrite <- Heq; reflexivity|]).
  destruct Hsfx.
Qed.

Lemma caseless_discovery_finds_twice_witness :
  count_occ Path_eq_dec
    [joinpath (Path_of "docs") "a.pdf"; joinpath (Path_of "docs") "a.pdf"]
    (joinpath (Path_of "docs") "a.pdf") = 2.
Proof.
  apply (caseless_discovery_finds_twice caseless_world (Path_of "docs")
           ["a.pdf"] "a.pdf").
  - reflexivity.
  - apply Permutation_refl.
  - reflexivity.
  - repeat constructor. cbn. tauto.
  - cbn; auto.
  - cbn; auto.
  - reflexivity.
Defined.

(* ===================================================================== *)
(** ** Further properties of the stock data tool *)
(* ===================================================================== *)

Section Report.

Import StockAnalysis.

Lemma getitem_missing (data : StockData) (key e : string) :
  getitem data key = Raise e -> e = "'" ++ key ++ "'".
Proof.
  induction data as [|[k v] data IH]; cbn [getitem].
  - now intros [= <-].
  - destruct (String.eqb k key); [discriminate | exact IH].
Qed.

Lemma render_complete (data : StockData) (template : list Piece) :
  forall acc,
    (forall key, In key (fields_of template) ->
                 exists v, getitem data key = Ok v) ->
    render template data acc = Ok (acc ++ filled template data).
Proof.
  induction template as [|[text | key] template IH]; intros acc Hall.
  - cbn. now rewrite append_empty_r.
  - cbn [render]. rewrite (IH _ Hall).
    unfold filled. cbn [map fold_right piece_text].
    now rewrite append_assoc.
  - cbn [render]. destruct (Hall key (or_introl eq_refl)) as [v Hv].
    rewrite Hv, IH by (intros k Hk; apply Hall; now right).
    unfold filled. cbn [map fold_right piece_text]. rewrite Hv.
    now rewrite append_assoc.
Qed.

Lemma render_incomplete (data : StockData) (template : list Piece) :
  forall acc,
    (exists key e, In key (fields_of template) /\ getitem data key = Raise e) ->
    exists key, In key (fields_of template) /\
                getitem data key = Raise ("'" ++ key ++ "'") /\
                render template data acc = Raise ("'" ++ key ++ "'").
Proof.
  induction template as [|[text | key] template IH]; intros acc Hmiss.
  - destruct Hmiss as [key [e [[] _]]].
  - cbn [render]. apply IH. exact Hmiss.
  - cbn [render fields_of]. destruct (getitem data key) as [v | e] eqn:Hkey.
    + destruct (IH (acc ++ v)) as [k [Hk Hr]].
      * destruct Hmiss as [k [e [[<- | Hk] Hget]]]; [congruence|].
        now exists k, e.
      * exists k. destruct Hr as [Hget Hr].
        repeat split; [now right | exact Hget | exact Hr].
    + exists key. pose proof (getitem_missing data key e Hkey) as He.
      subst e. repeat split; [now left | exact Hkey].
Qed.

End Report.

(** X13. The report needs every field of its template.  When the fetched
    dictionary has them all, [_run] returns the report: the text of the
    template with every field replaced by its value.  When one is missing
    (the three return fields are, for a stock without price history),
    [_run] does not return an error string: it raises the [KeyError] of a
    missing field. *)
Theorem run_raises_on_missing_field :
  forall (mk : StockAnalysis.Market) (symbol : string)
         (t : StockAnalysis.Trace) (data : StockAnalysis.StockData),
    StockAnalysis.yf_data mk (StockAnalysis.requests t) symbol = Ok data ->
    ((forall key, In key (fields_of StockAnalysis.report_template) ->
                  exists v, StockAnalysis.getitem data key = Ok v) ->
     result_of (StockAnalysis._run mk symbol) t
     = Ok (filled StockAnalysis.report_template data)) /\
    ((exists key e, In key (fields_of StockAnalysis.report_template) /\
                    StockAnalysis.getitem data key = Raise e) ->
     exists key, In key (fields_of StockAnalysis.report_template) /\
                 StockAnalysis.getitem data key = Raise ("'" ++ key ++ "'") /\
                 result_of (StockAnalysis._run mk symbol) t
                 = Raise ("'" ++ key ++ "'")).
Proof.
  intros mk symbol t data Hdata. unfold result_of.
  rewrite (run_first_ok mk symbol t data Hdata). cbn [fst]. split.
  - intros Hall. now rewrite (render_complete data _ "" Hall).
  - apply render_incomplete.
Qed.

Lemma run_raises_on_missing_field_witness :
  result_of (StockAnalysis._run sample_market "TCS.NS") empty_trace
  = Ok (filled StockAnalysis.report_template
               (("symbol", "TCS.NS")
                :: map (fun key => (key, "N/A"))
                       ["company_name"; "sector"; "industry"; "current_price";
                        "market_cap"; "pe_ratio"; "price_to_book"; "beta";
                        "debt_to_equity"; "roe"; "profit_margin";
                        "revenue_growth"; "dividend_yield"; "52_week_high";
                        "52_week_low"; "1_month_return"; "3_month_return";
                        "1_year_return"; "volume"; "avg_volume"])) /\
  exists key, In key (fields_of StockAnalysis.report_template) /\
              StockAnalysis.getitem
                (("symbol", "NEWCO")
                 :: map (fun key => (key, "N/A"))
                        ["company_name"; "sector"; "industry"; "current_price";
                         "market_cap"; "pe_ratio"; "price_to_book"; "beta";
                         "debt_to_equity"; "roe"; "profit_margin";
                         "revenue_growth"; "dividend_yield"; "52_week_high";
                         "52_week_low"; "volume"; "avg_volume"]) key
              = Raise ("'" ++ key ++ "'") /\
              result_of (StockAnalysis._run no_history_market "NEWCO") empty_trace
              = Raise ("'" ++ key ++ "'").
Proof.
  split.
  - apply (proj1 (run_raises_on_missing_field sample_market "TCS.NS"
                    empty_trace _ eq_refl)).
    intros key Hkey. cbn in Hkey.
    repeat (destruct Hkey as [<- | Hkey]; [eexists; reflexivity|]).
    destruct Hkey.
  - apply (proj2 (run_raises_on_missing_field no_history_market "NEWCO"
                    empty_trace _ eq_refl)).
    exists "1_month_return", "'1_month_return'". split.
    + cbn. auto 30.
    + reflexivity.
Defined.

(** The head of a report, for the dictionary of [sample_market]. *)
Example report_sample :
  exists rest,
    result_of (StockAnalysis._run sample_market "TCS.NS") empty_trace
    = Ok (newline ++ "STOCK DATA FOR TCS.NS" ++ newline
          ++ "===============================" ++ newline
          ++ "Company: N/A" ++ newline
          ++ "Sector: N/A | Industry: N/A" ++ newline ++ rest).
Proof. eexists. vm_compute. reflexivity. Qed.

(** X14. When the first fetch and the retry both fail, [_run] returns the
    error string of the retry, which names the symbol with ".NS"; the
    error of the first fetch is dropped.  It has printed the line
    "Trying <symbol>.NS for Indian stock..." and made the two requests. *)
Theorem run_reports_the_retry :
  forall (mk : StockAnalysis.Market) (symbol : string)
         (t : StockAnalysis.Trace) (e1 e2 : string),
    endswith ".NS" symbol = false ->
    StockAnalysis.yf_data mk (StockAnalysis.requests t) symbol = Raise e1 ->
    StockAnalysis.yf_data mk (StockAnalysis.requests t ++ [symbol])%list
                          (symbol ++ ".NS") = Raise e2 ->
    StockAnalysis._run mk symbol t
    = (Ok ("Error fetching " ++ (symbol ++ ".NS") ++ ": " ++ e2),
       StockAnalysis.mkTrace
         (StockAnalysis.requests t ++ [symbol; (symbol ++ ".NS")%string])%list
         (StockAnalysis.printed t
          ++ [("Trying " ++ symbol ++ ".NS for Indian stock...")%string])%list).
Proof.
  intros mk symbol t e1 e2 Hns H1 H2.
  rewrite (run_failed_retry mk symbol t e1 Hns H1). cbv zeta.
  now rewrite H2.
Qed.

Lemma run_reports_the_retry_witness :
  StockAnalysis._run closed_market "ACME" empty_trace
  = (Ok "Error fetching ACME.NS: No data found for ACME.NS",
     StockAnalysis.mkTrace ["ACME"; "ACME.NS"]
                           ["Trying ACME.NS for Indian stock..."]).
Proof.
  apply (run_reports_the_retry closed_market "ACME" empty_trace
           "No data found for ACME" "No data found for ACME.NS");
    reflexivity.
Defined.

(* ===================================================================== *)
(** ** Properties of the news search *)
(* ===================================================================== *)

Section NewsSearch.

Import StockNews.

Variable sv : Service.

Lemma search_loop_trace (todo : list string) :
  forall (all_news : list NewsItem) (t : Trace),
    queries (snd (search_loop sv todo all_news t))
    = (queries t ++ todo)%list /\
    sleeps t <= sleeps (snd (search_loop sv todo all_news t))
    <= sleeps t + List.length todo.
Proof.
  induction todo as [|query todo IH]; intros all_news t.
  - cbn. rewrite app_nil_r. split; [reflexivity | lia].
  - cbn [search_loop List.length].
    destruct (ddgs_text sv (queries t) query) as [results | e].
    + destruct (collect results all_news) as [news' [[] | e]];
        match goal with
        | |- context [search_loop sv todo ?n ?t'] =>
            destruct (IH n t') as [Hq Hs]
        end; rewrite Hq; cbn [queries sleeps report_query_error] in *;
        rewrite <- app_assoc; (split; [reflexivity | lia]).
    + match goal with
      | |- context [search_loop sv todo ?n ?t'] =>
          destruct (IH n t') as [Hq Hs]
      end; rewrite Hq; cbn [queries sleeps report_query_error] in *;
      rewrite <- app_assoc; split; [reflexivity | lia].
Qed.

Lemma search_loop_all_fail (todo : list string) :
  (forall history query, exists e, ddgs_text sv history query = Raise e) ->
  forall (all_news : list NewsItem) (t : Trace),
    fst (search_loop sv todo all_news t) = all_news /\
    sleeps (snd (search_loop sv todo all_news t)) = sleeps t /\
    List.length (printed (snd (search_loop sv todo all_news t)))
    = List.length (printed t) + List.length todo.
Proof.
  intros Hfail. induction todo as [|query todo IH]; intros all_news t.
  - cbn. auto.
  - cbn [search_loop List.length].
    destruct (Hfail (queries t) query) as [e ->].
    match goal with
    | |- context [search_loop sv todo ?n ?t'] =>
        destruct (IH n t') as [Hn [Hs Hp]]
    end.
    rewrite Hn, Hs, Hp. cbn [sleeps printed report_query_error].
    rewrite length_app. cbn [List.length]. repeat split; lia.
Qed.

Lemma collect_well_formed (results : list Hit) :
  Forall well_formed results ->
  forall all_news rest,
  exists items,
    List.length items = List.length results /\
    collect (results ++ rest) all_news = collect rest (all_news ++ items)%list.
Proof.
  induction 1 as [|result results [host Hhost] _ IH]; intros all_news rest.
  - exists []. now rewrite app_nil_r.
  - cbn [app collect]. unfold news_item. rewrite Hhost.
    destruct (IH (all_news ++
                  [mkNewsItem (get_or_empty (hit_title result))
                              (get_or_empty (hit_body result))
                              (get_or_empty (hit_href result)) host])%list rest)
      as [items [Hlen Hc]].
    eexists (_ :: items). split; [cbn; now rewrite Hlen|].
    rewrite Hc, <- app_assoc. reflexivity.
Qed.

End NewsSearch.

(** X15. [search_stock_news] never raises: it always returns a string.
    When the search service cannot be opened, the string is "Error
    searching for news: <error>" and no query is sent. *)
Theorem search_stock_news_contains_errors :
  forall (sv : StockNews.Service) (company_name symbol : string)
         (t : StockNews.Trace),
    (exists text t',
        StockNews.search_stock_news sv company_name symbol t = (Ok text, t')) /\
    (forall e, StockNews.ddgs_open sv = Raise e ->
               StockNews.search_stock_news sv company_name symbol t
               = (Ok ("Error searching for news: " ++ e), t)).
Proof.
  intros sv company_name symbol t. split.
  - apply returns_try_except. intros e. apply returns_ret.
  - intros e Hopen.
    unfold StockNews.search_stock_news, try_except, bind, lift.
    now rewrite Hopen.
Qed.

Lemma search_stock_news_contains_errors_witness :
  StockNews.search_stock_news closed_service "Acme Corp" "ACME" empty_search
  = (Ok "Error searching for news: Connection refused", empty_search).
Proof.
  apply (proj2 (search_stock_news_contains_errors closed_service "Acme Corp"
                  "ACME" empty_search)).
  reflexivity.
Defined.

(** X16. Once the service is open, a search sends its three queries, in
    order, whatever happens to each of them: a query that fails does not
    stop the others.  It pauses at most three times, once for each query
    that went through. *)
Theorem search_stock_news_sends_three_queries :
  forall (sv : StockNews.Service) (company_name symbol : string)
         (t : StockNews.Trace),
    StockNews.ddgs_open sv = Ok tt ->
    StockNews.queries
      (state_after (StockNews.search_stock_news sv company_name symbol) t)
    = (StockNews.queries t
       ++ [(company_name ++ " stock news")%string;
           (symbol ++ " earnings news")%string;
           (company_name ++ " financial news")%string])%list /\
    StockNews.sleeps t
    <= StockNews.sleeps
         (state_after (StockNews.search_stock_news sv company_name symbol) t)
    <= StockNews.sleeps t + 3.
Proof.
  intros sv company_name symbol t Hopen.
  pose proof (search_loop_trace sv (StockNews.news_queries company_name symbol)
                                [] t) as H.
  unfold state_after, StockNews.search_stock_news, try_except, bind, lift.
  rewrite Hopen.
  destruct (StockNews.search_loop sv _ [] t) as [all_news t'].
  cbn [snd] in H. destruct all_news; exact H.
Qed.

Lemma search_stock_news_sends_three_queries_witness :
  StockNews.queries
    (state_after (StockNews.search_stock_news failing_service "Acme Corp" "ACME")
                 empty_search)
  = ([] ++ ["Acme Corp stock news"; "ACME earnings news";
            "Acme Corp financial news"])%list /\
  0 <= StockNews.sleeps
         (state_after
            (StockNews.search_stock_news failing_service "Acme Corp" "ACME")
            empty_search)
  <= 0 + 3.
Proof.
  apply (search_stock_news_sends_three_queries failing_service "Acme Corp"
           "ACME" empty_search).
  reflexivity.
Defined.

(** X17. When every query fails, the search returns "No recent news found
    for <company> (<symbol>)": it has printed one line for each of the
    three failures and has not paused. *)
Theorem search_stock_news_all_queries_fail :
  forall (sv : StockNews.Service) (company_name symbol : string)
         (t : StockNews.Trace),
    StockNews.ddgs_open sv = Ok tt ->
    (forall history query,
        exists e, StockNews.ddgs_text sv history query = Raise e) ->
    result_of (StockNews.search_stock_news sv company_name symbol) t
    = Ok ("No recent news found for " ++ company_name ++ " (" ++ symbol ++ ")")
    /\
    StockNews.sleeps
      (state_after (StockNews.search_stock_news sv company_name symbol) t)
    = StockNews.sleeps t /\
    List.length
      (StockNews.printed
         (state_after (StockNews.search_stock_news sv company_name symbol) t))
    = List.length (StockNews.printed t) + 3.
Proof.
  intros sv company_name symbol t Hopen Hfail.
  pose proof (search_loop_all_fail sv
                (StockNews.news_queries company_name symbol) Hfail [] t) as H.
  unfold result_of, state_after, StockNews.search_stock_news, try_except,
    bind, lift.
  rewrite Hopen.
  destruct (StockNews.search_loop sv _ [] t) as [all_news t'].
  cbn [fst snd] in H. destruct H as [-> H]. exact (conj eq_refl H).
Qed.

Lemma search_stock_news_all_queries_fail_witness :
  result_of (StockNews.search_stock_news failing_service "Acme Corp" "ACME")
            empty_search
  = Ok ("No recent news found for " ++ "Acme Corp" ++ " (" ++ "ACME" ++ ")") /\
  StockNews.sleeps
    (state_after (StockNews.search_stock_news failing_service "Acme Corp" "ACME")
                 empty_search)
  = StockNews.sleeps empty_search /\
  List.length
    (StockNews.printed
       (state_after
          (StockNews.search_stock_news failing_service "Acme Corp" "ACME")
          empty_search))
  = List.length (StockNews.printed empty_search) + 3.
Proof.
  apply (search_stock_news_all_queries_fail failing_service "Acme Corp" "ACME"
           empty_search).
  - reflexivity.
  - intros history query. now exists "Ratelimit".
Defined.

(** X18. A result whose address is not empty and has fewer than three
    parts between slashes (no "scheme://host" form) stops the reading of
    its query with "list index out of range": the items of the results
    before it are kept, the results after it are dropped. *)
Theorem collect_stops_at_malformed_address :
  forall (before after : list StockNews.Hit) (bad : StockNews.Hit)
         (href : string) (all_news : list StockNews.NewsItem),
    Forall StockNews.well_formed before ->
    StockNews.hit_href bad = Some href ->
    href <> "" ->
    List.length (split_on "/" href) <= 2 ->
    exists items,
      List.length items = List.length before /\
      StockNews.collect (before ++ bad :: after) all_news
      = ((all_news ++ items)%list, Raise "list index out of range").
Proof.
  intros before after bad href all_news Hgood Hhref Hne Hlen.
  destruct (collect_well_formed before Hgood all_news (bad :: after))
    as [items [Hitems Hc]].
  exists items. split; [exact Hitems|]. rewrite Hc.
  cbn [StockNews.collect]. unfold StockNews.news_item, StockNews.source_of.
  rewrite Hhref. apply String.eqb_neq in Hne. rewrite Hne.
  now rewrite (proj2 (nth_error_None _ _)) by lia.
Qed.

Lemma collect_stops_at_malformed_address_witness :
  exists items,
    List.length items = List.length [good_hit; plain_hit] /\
    StockNews.collect ([good_hit; plain_hit] ++ bad_hit :: [good_hit]) []
    = (([] ++ items)%list, Raise "list index out of range").
Proof.
  apply (collect_stops_at_malformed_address [good_hit; plain_hit] [good_hit]
           bad_hit "example.com" []).
  - repeat constructor.
    + now exists "news.example.com".
    + now exists "Unknown".
  - reflexivity.
  - discriminate.
  - cbn. lia.
Defined.

(* ===================================================================== *)
(** ** Properties of the command line *)
(* ===================================================================== *)

Section Session.

Import Cli.

Variable w : World.
Variable env : Env.

Lemma is_choice_false (line : string) :
  is_choice line = false ->
  String.eqb (strip line) "1" = false /\
  String.eqb (strip line) "2" = false /\
  String.eqb (strip line) "3" = false.
Proof.
  unfold is_choice, ext_in. cbn [existsb].
  rewrite !orb_false_iff. tauto.
Qed.

Lemma loop_invalid (line : string) (rest : list string) (o : Out) :
  is_choice line = false ->
  interactive_loop w env (line :: rest) o
  = interactive_loop w env rest
      (mkOut (stdout o ++ menu ++ ["Invalid option"])%list (errlog o)).
Proof.
  intros Hline. destruct (is_choice_false line Hline) as [H1 [H2 H3]].
  cbn [interactive_loop]. unfold bind at 1 2 3 4 5. cbn [print stdout errlog].
  rewrite H1, H2, H3. unfold bind, print. cbn [stdout errlog].
  unfold menu. now rewrite <- !app_assoc.
Qed.

Lemma loop_exit (line : string) (rest : list string) (o : Out) :
  strip line = "3" ->
  interactive_loop w env (line :: rest) o
  = (Ok rest, mkOut (stdout o ++ menu ++ ["Goodbye!"])%list (errlog o)).
Proof.
  intros Hline.
  cbn [interactive_loop]. unfold bind at 1 2 3 4 5. cbn [print stdout errlog].
  rewrite Hline. cbn [String.eqb Ascii.eqb Bool.eqb andb].
  unfold bind, print, ret. cbn [stdout errlog].
  unfold menu. now rewrite <- !app_assoc.
Qed.

Lemma loop_eof (o : Out) :
  interactive_loop w env [] o
  = (Raise eof_error, mkOut (stdout o ++ menu)%list (errlog o)).
Proof.
  cbn [interactive_loop]. unfold bind, print, lift. cbn [stdout errlog].
  unfold menu. now rewrite <- !app_assoc.
Qed.

Lemma loop_invalid_run (junk : list string) :
  forallb (fun line => negb (is_choice line)) junk = true ->
  forall (rest : list string) (o : Out),
    interactive_loop w env (junk ++ rest) o
    = interactive_loop w env rest
        (mkOut (stdout o
                ++ flat_map (fun _ => menu ++ ["Invalid option"]) junk)%list
               (errlog o)).
Proof.
  induction junk as [|line junk IH]; intros Hjunk rest o.
  - cbn. rewrite app_nil_r. now destruct o.
  - cbn [forallb] in Hjunk. apply andb_true_iff in Hjunk as [Hline Hjunk].
    apply negb_true_iff in Hline.
    cbn [app flat_map]. rewrite (loop_invalid line _ o Hline).
    rewrite (IH Hjunk). cbn [stdout errlog].
    now rewrite <- !app_assoc.
Qed.

End Session.

(** X19. Without an API key, in the environment and after the .env file
    has been read, [main] prints its banner and the two lines of the
    error and stops: whatever the flags and the input, no document is
    looked at and nothing is logged. *)
Theorem main_needs_api_key :
  forall (w : World) (env : Cli.Env) (args : Cli.Args) (stdin : list string)
         (o : Out) (loaded : option string),
    Cli.truthy (Cli.getenv_key env) = false ->
    Cli.dotenv_key env = Ok loaded ->
    Cli.truthy loaded = false ->
    Cli.main w env args stdin o
    = (Ok tt,
       mkOut (stdout o
              ++ ["Document Classification Framework";
                  "==================================================";
                  "Error: GOOGLE_API_KEY not found in environment";
                  "Please check your .env file"])%list
             (errlog o)).
Proof.
  intros w env args stdin o loaded Hkey Hdot Hloaded.
  unfold Cli.main, bind, lift, ret, print.
  rewrite Hkey, Hdot, Hloaded. cbn [negb stdout errlog].
  now rewrite <- !app_assoc.
Qed.

Lemma main_needs_api_key_witness :
  Cli.main sample_world keyless_env
           (Cli.mkArgs (Some "docs/a.txt") None false) [] empty_out
  = (Ok tt,
     mkOut (stdout empty_out
            ++ ["Document Classification Framework";
                "==================================================";
                "Error: GOOGLE_API_KEY not found in environment";
                "Please check your .env file"])%list
           (errlog empty_out)).
Proof.
  apply (main_needs_api_key sample_world keyless_env
           (Cli.mkArgs (Some "docs/a.txt") None false) [] empty_out (Some ""));
    reflexivity.
Defined.

(** X20. The order of the flags.  With a file given, the batch flag, the
    interactive flag and the input are not looked at.  A file or batch
    flag with the empty string counts as absent.  The interactive flag is
    never consulted: the session starts whenever neither file nor batch
    is given. *)
Theorem main_flag_precedence :
  forall (w : World) (env : Cli.Env) (o : Out),
    (forall file batch interactive stdin batch' interactive' stdin',
        file <> "" ->
        Cli.main w env (Cli.mkArgs (Some file) batch interactive) stdin o
        = Cli.main w env (Cli.mkArgs (Some file) batch' interactive') stdin' o)
    /\
    (forall batch interactive stdin,
        Cli.main w env (Cli.mkArgs (Some "") batch interactive) stdin o
        = Cli.main w env (Cli.mkArgs None batch interactive) stdin o) /\
    (forall file interactive stdin,
        Cli.main w env (Cli.mkArgs file (Some "") interactive) stdin o
        = Cli.main w env (Cli.mkArgs file None interactive) stdin o) /\
    (forall file batch interactive interactive' stdin,
        Cli.main w env (Cli.mkArgs file batch interactive) stdin o
        = Cli.main w env (Cli.mkArgs file batch interactive') stdin o).
Proof.
  intros w env o. repeat split.
  - intros file batch interactive stdin batch' interactive' stdin' Hfile.
    apply String.eqb_neq in Hfile.
    unfold Cli.main, Cli.dispatch. cbn [Cli.arg_file Cli.truthy].
    rewrite Hfile. reflexivity.
Qed.

Lemma main_flag_precedence_witness :
  Cli.main sample_world sample_env
           (Cli.mkArgs (Some "docs/a.txt") (Some "docs") true) ["3"] empty_out
  = Cli.main sample_world sample_env
             (Cli.mkArgs (Some "docs/a.txt") None false) [] empty_out.
Proof.
  apply (proj1 (main_flag_precedence sample_world sample_env empty_out)).
  discriminate.
Defined.

(** X21. [main] lets one error through only: it raises exactly when no
    API key is in the environment and reading the .env file raises.
    Every other error (a failed import, the end of the input, an error of
    the framework) ends in a printed message. *)
Theorem main_raises_only_for_dotenv :
  forall (w : World) (env : Cli.Env) (args : Cli.Args) (stdin : list string)
         (o : Out) (e : string),
    result_of (Cli.main w env args stdin) o = Raise e <->
    Cli.truthy (Cli.getenv_key env) = false /\ Cli.dotenv_key env = Raise e.
Proof.
  intros w env args stdin o e.
  assert (Htail : forall s,
             exists o',
               (if negb true
                then print "Error: GOOGLE_API_KEY not found in environment" ;;;
                     print "Please check your .env file"
                else match Cli.import_framework env with
                     | Raise e0 =>
                         print ("Error importing framework: " ++ e0) ;;;
                         print "Make sure all dependencies are installed"
                     | Ok _ =>
                         try_except (Cli.dispatch w env args stdin)
                                    (fun e0 => print ("Error: " ++ e0))
                     end) s = (Ok tt, o')).
  { intros s. cbn [negb]. destruct (Cli.import_framework env).
    - unfold try_except.
      destruct (Cli.dispatch w env args stdin s) as [[[] | e'] o'];
        now eexists.
    - now eexists. }
  unfold result_of, Cli.main. unfold bind at 1 2 3. cbn [print].
  destruct (Cli.truthy (Cli.getenv_key env)).
  - unfold ret at 1.
    match goal with
    | |- context [(if negb true then _ else _) ?s] =>
        destruct (Htail s) as [o' ->]
    end.
    split; [discriminate | intros [? _]; discriminate].
  - unfold bind at 1, lift.
    destruct (Cli.dotenv_key env) as [loaded | e'].
    + unfold ret at 1.
      destruct (Cli.truthy loaded).
      * match goal with
        | |- context [(if negb true then _ else _) ?s] =>
            destruct (Htail s) as [o' ->]
        end.
        split; [discriminate | intros [_ ?]; discriminate].
      * cbn. split; [discriminate | intros [_ ?]; discriminate].
    + cbn. split.
      * intros [= ->]. auto.
      * intros [_ [= ->]]. reflexivity.
Qed.

Lemma main_raises_only_for_dotenv_witness :
  result_of (Cli.main sample_world broken_dotenv_env
                      (Cli.mkArgs None None true) ["3"]) empty_out
  = Raise "No module named 'dotenv'".
Proof.
  apply (proj2 (main_raises_only_for_dotenv sample_world broken_dotenv_env
                  (Cli.mkArgs None None true) ["3"] empty_out
                  "No module named 'dotenv'")).
  split; reflexivity.
Defined.

(** X22. In the interactive loop every line that is not one of the
    choices 1, 2, 3 (white space around it aside) is answered with
    "Invalid option" and the menu again; the first "3" then ends the loop
    with "Goodbye!".  The lines after it stay unread, no document has been
    processed and nothing is logged. *)
Theorem interactive_loop_invalid_then_exit :
  forall (w : World) (env : Cli.Env) (junk : list string) (quit : string)
         (rest : list string) (o : Out),
    forallb (fun line => negb (Cli.is_choice line)) junk = true ->
    strip quit = "3" ->
    Cli.interactive_loop w env (junk ++ quit :: rest) o
    = (Ok rest,
       mkOut (stdout o
              ++ flat_map (fun _ => Cli.menu ++ ["Invalid option"]) junk
              ++ Cli.menu ++ ["Goodbye!"])%list
             (errlog o)).
Proof.
  intros w env junk quit rest o Hjunk Hquit.
  rewrite (loop_invalid_run w env junk Hjunk).
  rewrite (loop_exit w env quit rest _ Hquit). cbn [stdout errlog].
  now rewrite <- !app_assoc.
Qed.

Lemma interactive_loop_invalid_then_exit_witness :
  Cli.interactive_loop sample_world sample_env
    (["help"; ""; "4"] ++ " 3 " :: ["1"; "docs/a.txt"]) empty_out
  = (Ok ["1"; "docs/a.txt"],
     mkOut (stdout empty_out
            ++ flat_map (fun _ => Cli.menu ++ ["Invalid option"])
                        ["help"; ""; "4"]
            ++ Cli.menu ++ ["Goodbye!"])%list
           (errlog empty_out)).
Proof.
  apply (interactive_loop_invalid_then_exit sample_world sample_env
           ["help"; ""; "4"] " 3 " ["1"; "docs/a.txt"] empty_out);
    reflexivity.
Defined.

(** X23. When the input ends before "3" is chosen, the session ends with
    the message "Error: EOF when reading a line": [main] returns normally
    with this as its last line. *)
Theorem main_session_ends_at_end_of_input :
  forall (w : World) (env : Cli.Env) (args : Cli.Args) (junk : list string)
         (o : Out),
    Cli.truthy (Cli.getenv_key env) = true ->
    Cli.import_framework env = Ok tt ->
    Cli.truthy (Cli.arg_file args) = false ->
    Cli.truthy (Cli.arg_batch args) = false ->
    forallb (fun line => negb (Cli.is_choice line)) junk = true ->
    exists o',
      Cli.main w env args junk o = (Ok tt, o') /\
      last (stdout o') "" = "Error: EOF when reading a line" /\
      errlog o' = errlog o.
Proof.
  intros w env args junk o Hkey Himport Hfile Hbatch Hjunk.
  unfold Cli.main, Cli.dispatch.
  rewrite Hkey, Himport, Hfile, Hbatch.
  unfold try_except, bind, ret, print. cbn [negb stdout errlog].
  match goal with
  | |- context [Cli.interactive_loop w env junk ?s] =>
      pose proof (loop_invalid_run w env junk Hjunk [] s) as Hrun;
      rewrite app_nil_r in Hrun; rewrite Hrun, loop_eof
  end.
  cbn [stdout errlog]. eexists. split; [reflexivity|].
  cbn [stdout errlog]. split; [apply last_last | reflexivity].
Qed.

Lemma main_session_ends_at_end_of_input_witness :
  exists o',
    Cli.main sample_world sample_env (Cli.mkArgs None (Some "") false)
             ["process"; "quit"] empty_out = (Ok tt, o') /\
    last (stdout o') "" = "Error: EOF when reading a line" /\
    errlog o' = errlog empty_out.
Proof.
  apply (main_session_ends_at_end_of_input sample_world sample_env
           (Cli.mkArgs None (Some "") false) ["process"; "quit"] empty_out);
    reflexivity.
Defined.

(** X24. In the interactive loop a choice 1 or 2 followed by a blank path
    processes nothing: the loop writes the menu and the prompt for the
    path and goes on with the next line. *)
Theorem interactive_loop_skips_blank_path :
  forall (w : World) (env : Cli.Env) (choice path : string)
         (rest : list string) (o : Out),
    strip path = "" ->
    (strip choice = "1" ->
     Cli.interactive_loop w env (choice :: path :: rest) o
     = Cli.interactive_loop w env rest
         (mkOut (stdout o ++ Cli.menu ++ ["Enter document path: "])%list
                (errlog o))) /\
    (strip choice = "2" ->
     Cli.interactive_loop w env (choice :: path :: rest) o
     = Cli.interactive_loop w env rest
         (mkOut (stdout o ++ Cli.menu ++ ["Enter directory path: "])%list
                (errlog o))).
Proof.
  intros w env choice path rest o Hpath. split; intros Hchoice;
    cbn [Cli.interactive_loop]; unfold bind at 1 2 3 4 5;
    cbn [print stdout errlog]; rewrite Hchoice, Hpath;
    cbn [String.eqb Ascii.eqb Bool.eqb andb];
    unfold bind, print, ret; cbn [stdout errlog];
    unfold Cli.menu; now rewrite <- !app_assoc.
Qed.

Lemma interactive_loop_skips_blank_path_witness :
  Cli.interactive_loop sample_world sample_env ["1"; "   "; "3"] empty_out
  = Cli.interactive_loop sample_world sample_env ["3"]
      (mkOut (stdout empty_out ++ Cli.menu ++ ["Enter document path: "])%list
             (errlog empty_out)).
Proof.
  apply (proj1 (interactive_loop_skips_blank_path sample_world sample_env
                  "1" "   " ["3"] empty_out eq_refl)).
  reflexivity.
Defined.

(* ===================================================================== *)
(** ** Paths and their text *)
(* ===================================================================== *)

Section PathText.

Lemma split_on_plain (x : string) :
  no_slash x = true -> split_on "/" x = [x].
Proof.
  induction x as [|c x IH]; cbn [no_slash split_on]; [reflexivity|].
  intros H. apply andb_true_iff in H as [Hc Hx].
  apply negb_true_iff in Hc. rewrite Hc, (IH Hx). reflexivity.
Qed.

Lemma split_on_next (x rest : string) :
  no_slash x = true ->
  split_on "/" (x ++ String "/" rest) = x :: split_on "/" rest.
Proof.
  induction x as [|c x IH]; cbn [no_slash append split_on].
  - reflexivity.
  - intros H. apply andb_true_iff in H as [Hc Hx].
    apply negb_true_iff in Hc. rewrite Hc, (IH Hx). reflexivity.
Qed.

Lemma split_on_join (ps : list string) :
  forallb no_slash ps = true -> ps <> [] ->
  split_on "/" (join "/" ps) = ps.
Proof.
  induction ps as [|x ps IH]; [congruence|]. intros Hall _.
  cbn [forallb] in Hall. apply andb_true_iff in Hall as [Hx Hps].
  destruct ps as [|y ps].
  - cbn [join]. now apply split_on_plain.
  - change (join "/" (x :: y :: ps)) with (x ++ String "/" (join "/" (y :: ps))).
    rewrite (split_on_next x _ Hx), (IH Hps); [reflexivity | discriminate].
Qed.

Lemma split_on_pieces (s : string) : forallb no_slash (split_on "/" s) = true.
Proof.
  induction s as [|c s IH]; [reflexivity|].
  cbn [split_on]. destruct (Ascii.eqb c "/") eqn:Hc.
  - cbn [forallb no_slash]. exact IH.
  - destruct (split_on "/" s) as [|p ps]; cbn [forallb no_slash] in *.
    + now rewrite Hc.
    + now rewrite Hc.
Qed.

Lemma proper_filter (ps : list string) :
  forallb proper_component ps = true -> filter is_component ps = ps.
Proof.
  induction ps as [|x ps IH]; [reflexivity|]. cbn [forallb filter].
  intros H. apply andb_true_iff in H as [Hx Hps].
  unfold proper_component in Hx. apply andb_true_iff in Hx as [Hx _].
  now rewrite Hx, (IH Hps).
Qed.

Lemma proper_no_slash (ps : list string) :
  forallb proper_component ps = true -> forallb no_slash ps = true.
Proof.
  induction ps as [|x ps IH]; [reflexivity|]. cbn [forallb].
  intros H. apply andb_true_iff in H as [Hx Hps].
  unfold proper_component in Hx. apply andb_true_iff in Hx as [_ Hx].
  now rewrite Hx, (IH Hps).
Qed.

Lemma filter_proper (ps : list string) :
  forallb no_slash ps = true ->
  forallb proper_component (filter is_component ps) = true.
Proof.
  induction ps as [|x ps IH]; [reflexivity|]. cbn [forallb filter].
  intros H. apply andb_true_iff in H as [Hx Hps].
  destruct (is_component x) eqn:Hc; [|now apply IH].
  cbn [forallb]. rewrite (IH Hps). unfold proper_component.
  now rewrite Hc, Hx.
Qed.

Lemma Path_of_wf (s : string) : wf_path (Path_of s) = true.
Proof.
  unfold wf_path, Path_of. cbn [root parts].
  rewrite (filter_proper _ (split_on_pieces s)), andb_true_r.
  destruct (startswith "/" s); [|reflexivity].
  destruct (startswith "//" s && negb (startswith "///" s)); reflexivity.
Qed.

(** The text of a path with components starts with the first character
    of its first component, which is not a slash. *)
Lemma join_head (x : string) (ps : list string) :
  proper_component x = true ->
  exists c tail, join "/" (x :: ps) = String c tail /\ Ascii.eqb c "/" = false.
Proof.
  unfold proper_component, is_component. intros H.
  apply andb_true_iff in H as [Hc Hs].
  destruct x as [|c x]; [discriminate|].
  cbn [no_slash] in Hs. apply andb_true_iff in Hs as [Hs _].
  apply negb_true_iff in Hs.
  destruct ps; eexists c, _; (split; [reflexivity | exact Hs]).
Qed.

Lemma Path_of_path_str (p : Path) :
  wf_path p = true -> Path_of (path_str p) = p.
Proof.
  destruct p as [r ps]. unfold wf_path. cbn [root parts].
  intros H. apply andb_true_iff in H as [Hroot Hps].
  destruct ps as [|x ps].
  - unfold ext_in in Hroot. cbn [existsb] in Hroot.
    rewrite orb_false_r in Hroot.
    apply orb_true_iff in Hroot as [Hr | Hroot];
      [| apply orb_true_iff in Hroot as [Hr | Hr]];
      apply String.eqb_eq in Hr; subst r; reflexivity.
  - pose proof Hps as Hall. cbn [forallb] in Hps.
    apply andb_true_iff in Hps as [Hx _].
    destruct (join_head x ps Hx) as [c [tail [Hj Hc]]].
    assert (Hc' : Ascii.eqb "/" c = false) by now rewrite Ascii.eqb_sym.
    assert (Hsplit : filter is_component (split_on "/" (join "/" (x :: ps)))
                     = x :: ps).
    { rewrite split_on_join; [now apply proper_filter
                             | now apply proper_no_slash | discriminate]. }
    unfold path_str, Path_of. cbn [root parts].
    unfold ext_in in Hroot. cbn [existsb] in Hroot.
    rewrite orb_false_r in Hroot.
    apply orb_true_iff in Hroot as [Hr | Hroot];
      [| apply orb_true_iff in Hroot as [Hr | Hr]];
      apply String.eqb_eq in Hr; subst r.
    + cbn [append]. rewrite Hsplit. rewrite Hj.
      cbn [startswith]. now rewrite Hc'.
    + change ("/" ++ join "/" (x :: ps)) with (String "/" (join "/" (x :: ps))).
      cbn [split_on Ascii.eqb Bool.eqb]. cbn [filter is_component String.eqb orb negb].
      rewrite Hsplit, Hj. cbn [startswith]. rewrite !Hc'. reflexivity.
    + change ("//" ++ join "/" (x :: ps))
        with (String "/" (String "/" (join "/" (x :: ps)))).
      cbn [split_on Ascii.eqb Bool.eqb]. cbn [filter is_component String.eqb orb negb].
      rewrite Hsplit, Hj. cbn [startswith]. rewrite !Hc'. reflexivity.
Qed.

End PathText.

(** X26. A path and its text.  Parsing the text of a parsed path gives
    the path back, and so does parsing the text of [dir / entry] for a
    directory entry (a name without slash, not empty, not "."): the
    string that [process_directory] hands to [process_document] names
    the discovered file, with the entry as its name. *)
Theorem path_text_round_trip :
  forall (s : string),
    Path_of (path_str (Path_of s)) = Path_of s /\
    (forall entry,
        proper_component entry = true ->
        Path_of (path_str (joinpath (Path_of s) entry))
        = joinpath (Path_of s) entry /\
        name (Path_of (path_str (joinpath (Path_of s) entry))) = entry).
Proof.
  intros s. split.
  - apply Path_of_path_str, Path_of_wf.
  - intros entry Hentry.
    assert (H : Path_of (path_str (joinpath (Path_of s) entry))
                = joinpath (Path_of s) entry).
    { apply Path_of_path_str. pose proof (Path_of_wf s) as Hwf.
      unfold wf_path in *. cbn [joinpath root parts].
      apply andb_true_iff in Hwf as [Hr Hps]. rewrite Hr. cbn [andb].
      rewrite forallb_app, Hps. cbn [forallb]. now rewrite Hentry. }
    split; [exact H|]. rewrite H. apply name_joinpath.
Qed.

Lemma path_text_round_trip_witness :
  Path_of (path_str (joinpath (Path_of "/srv//docs/") "report.PDF"))
  = joinpath (Path_of "/srv//docs/") "report.PDF" /\
  name (Path_of (path_str (joinpath (Path_of "/srv//docs/") "report.PDF")))
  = "report.PDF".
Proof.
  apply (proj2 (path_text_round_trip "/srv//docs/") "report.PDF").
  reflexivity.
Defined.
